(** * Time-series feature preprocessing (ludwig/features/timeseries_feature.py)

    A shallow embedding of [TimeseriesFeatureMixin]: [get_feature_meta],
    [build_matrix], [feature_data], [build_stumpy_mp] and
    [add_timeseries_matrix_profile], with the properties of the
    specification stated over it; then of [add_feature_data], of
    [TimeseriesInputFeature.update_config_with_metadata] and of the backend
    registry of ludwig/backend/__init__.py, with further properties read
    off the code.

    Python values are modelled as follows.
    - [int] is [Z]; a [list] or a one-dimensional array is a Rocq list; a
      two-dimensional array is a list of rows.
    - a [dict] with string keys is a [gmap string pyobj]; [d.get(k, v)] is
      [default v (d !! k)] and [d[k]] raises [KeyError] on a missing key.
    - a raised exception is the [Raise] case of [result]; the calls of
      [build_stumpy_mp] are recorded in a trace ([traced]).
    - numpy, pandas, numba and stumpy are libraries outside the repository:
      their scalar types and conversions are the fields of [Libraries], and
      the matrix-profile kernels are fields of the [world] the code runs in. *)

From Stdlib Require Import ZArith Ascii String List Lia.
From stdpp Require Import base option list gmap strings pretty.

Local Open Scope string_scope.
Local Open Scope list_scope.

(** ** Exceptions and the two effect layers *)

Inductive exn : Type :=
| KeyError (key : string)
| IndexError
| ValueError
| TypeError
| Exception (msg : string).

Inductive result (A : Type) : Type :=
| Ok (a : A)
| Raise (e : exn).
Arguments Ok {A} a.
Arguments Raise {A} e.

Definition rbind {A B} (c : result A) (k : A → result B) : result B :=
  match c with
  | Ok a => k a
  | Raise e => Raise e
  end.

Notation "'let*' x ':=' c 'in' k" := (rbind c (fun x => k))
  (at level 10, x pattern, c at level 100, k at level 200).

(** A left-to-right loop whose body may raise: [for x in xs: s = body(s, x)]. *)
Fixpoint for_each {S X} (body : S → X → result S) (s : S) (xs : list X)
  : result S :=
  match xs with
  | [] => Ok s
  | x :: xs' => let* s' := body s x in for_each body s' xs'
  end.

(** [np.array(xs).astype(t)]: element-wise conversion, failing as a whole. *)
Fixpoint astype {X Y} (conv : X → option Y) (xs : list X) : result (list Y) :=
  match xs with
  | [] => Ok []
  | x :: xs' =>
      match conv x with
      | Some y => let* ys := astype conv xs' in Ok (y :: ys)
      | None => Raise ValueError
      end
  end.

(** The trace layer: a computation that also records the calls it makes. *)
Inductive event : Type :=
| Call_build_stumpy_mp (column : list string) (seq_length : Z).

Definition traced (A : Type) : Type := (list event * result A)%type.

Definition tret {A} (a : A) : traced A := ([], Ok a).
Definition lift {A} (c : result A) : traced A := ([], c).
Definition tbind {A B} (c : traced A) (k : A → traced B) : traced B :=
  match c with
  | (tr, Ok a) => let '(tr', r) := k a in (tr ++ tr', r)
  | (tr, Raise e) => (tr, Raise e)
  end.

Notation "'let+' x ':=' c 'in' k" := (tbind c (fun x => k))
  (at level 10, x pattern, c at level 100, k at level 200).

(** ** Python sequence primitives *)

(** [[x] * n]: empty for a non-positive count. *)
Definition py_repeat {A} (x : A) (n : Z) : list A := replicate (Z.to_nat n) x.

(** [range(a, b)]. *)
Definition py_range (a b : Z) : list Z := seqZ a (b - a).

(** Clamping of one bound of [l[start:stop]] (step 1): a negative bound
    counts from the end, and the result is cut to [0 .. len]. *)
Definition slice_bound (len i : Z) : Z :=
  if (i <? 0)%Z then Z.max 0 (i + len) else Z.min i len.

(** [l[start:stop]]. *)
Definition py_slice {A} (l : list A) (start stop : Z) : list A :=
  let len := Z.of_nat (length l) in
  let a := slice_bound len start in
  let b := slice_bound len stop in
  take (Z.to_nat (b - a)) (drop (Z.to_nat a) l).

(** [l[0]] on a list or an array, read by position; the label lookup of a
    pandas Series is [rows_labelled_0] below. *)
Definition first_item {A} (l : list A) : result A :=
  match l with
  | x :: _ => Ok x
  | [] => Raise IndexError
  end.

(** [sep.join(parts)]. *)
Definition join (sep : string) (parts : list string) : string :=
  String.concat sep parts.

(** ** Python values held by the configuration dictionaries *)

Inductive pyval (float : Type) : Type :=
| PNone
| PBool (b : bool)
| PInt (z : Z)
| PFloat (x : float)
| PStr (s : string).
Arguments PNone {float}.
Arguments PBool {float} b.
Arguments PInt {float} z.
Arguments PFloat {float} x.
Arguments PStr {float} s.

(** A Python number. *)
Inductive number (float : Type) : Type :=
| NInt (z : Z)
| NFloat (x : float).
Arguments NInt {float} z.
Arguments NFloat {float} x.

(** ** The libraries the module calls *)

(** numpy and pandas scalars with the conversions the code applies to them,
    and the tokenizer registry of [ludwig.utils.strings_utils]. *)
Class Libraries : Type := {
  (** Python [float] / [np.float64], with [str], [bool] and [pd.isnull]. *)
  float64 : Type;
  float64_str : float64 → string;
  float64_bool : float64 → bool;
  float64_isnan : float64 → bool;
  (** [np.array(column, dtype=np.floating)] on one string. *)
  float64_of_str : string → option float64;
  (** [np.float32], the cell type of the matrix, and the conversions to it:
      [astype(np.float32)] on a string, an [int] and a [float]. *)
  float32 : Type;
  float32_of_str : string → option float32;
  float32_of_int : Z → float32;
  float32_of_float : float64 → float32;
  (** [get_from_registry(name, tokenizer_registry)()]: the tokenizer built
      for a name, or the error raised for an unknown one. *)
  get_from_registry : pyval float64 → result (string → list string)
}.

(** The values and numbers of a run, over its [float]. *)
Abbreviation pyobj := (pyval float64).
Abbreviation pynum := (number float64).

Section Timeseries.

Context `{Libraries}.

(** Truth value of an object, as tested by [if v:]. *)
Definition truthy (v : pyobj) : bool :=
  match v with
  | PNone => false
  | PBool b => b
  | PInt z => negb (z =? 0)%Z
  | PFloat x => float64_bool x
  | PStr s => negb (String.eqb s "")
  end.

(** [v == 'right'] and the like: only a [str] equals a [str]. *)
Definition eq_str (v : pyobj) (s : string) : bool :=
  match v with
  | PStr s' => String.eqb s' s
  | _ => false
  end.

(** Entries used as integers; [bool] is a subclass of [int]. An entry of
    another type is outside the typed readings of the embedding and is
    rejected with [TypeError] where it is read. *)
Definition as_int (v : pyobj) : result Z :=
  match v with
  | PInt z => Ok z
  | PBool b => Ok (Z.b2z b)
  | _ => Raise TypeError
  end.

Definition as_number (v : pyobj) : result pynum :=
  match v with
  | PInt z => Ok (NInt z)
  | PBool b => Ok (NInt (Z.b2z b))
  | PFloat x => Ok (NFloat x)
  | _ => Raise TypeError
  end.

Definition float32_of_number (n : pynum) : float32 :=
  match n with
  | NInt z => float32_of_int z
  | NFloat x => float32_of_float x
  end.

(** [d[k]]. *)
Definition getitem (d : gmap string pyobj) (k : string) : result pyobj :=
  match d !! k with
  | Some v => Ok v
  | None => Raise (KeyError k)
  end.

(** ** get_feature_meta *)

Definition max_tokenized_length (tokenizer : string → list string)
    (column : list string) : Z :=
  fold_left
    (fun max_length timeseries =>
       let processed_line := tokenizer timeseries in
       Z.max max_length (Z.of_nat (length processed_line)))
    column 0%Z.

Definition get_feature_meta (column : list string)
    (preprocessing_parameters : gmap string pyobj)
  : result (gmap string pyobj) :=
  let* name := getitem preprocessing_parameters "tokenizer" in
  let* tokenizer := get_from_registry name in
  let max_length := max_tokenized_length tokenizer column in
  let* limit_v := getitem preprocessing_parameters "timeseries_length_limit" in
  let* limit := as_int limit_v in
  let max_length := Z.min limit max_length in
  Ok {[ "max_timeseries_length" := PInt max_length ]}.

(** ** build_matrix *)

(** A cell of the column handed to [build_matrix]: a string, or the [None]
    that [add_timeseries_matrix_profile] leaves in the first rows. *)
Definition cell_truthy (ts : option string) : bool :=
  match ts with
  | Some s => negb (String.eqb s "")
  | None => false
  end.

(** The vector of one row: [np.array(tokenized).astype(np.float32)], where
    [tokenized] is [tokenizer(ts)] for a truthy cell and [[padding_value]]
    otherwise. *)
Definition row_vector (tokenizer : string → list string)
    (padding_value : pynum) (ts : option string) : result (list float32) :=
  match ts with
  | Some s =>
      if cell_truthy ts
      then astype float32_of_str (tokenizer s)
      else Ok [float32_of_number padding_value]
  | None => Ok [float32_of_number padding_value]
  end.

(** The first loop: one float32 vector per row, and the longest length. *)
Definition build_vectors (tokenizer : string → list string)
    (padding_value : pynum) (timeseries : list (option string))
  : result (Z * list (list float32)) :=
  for_each
    (fun '(max_length, ts_vectors) ts =>
       let* ts_vector := row_vector tokenizer padding_value ts in
       let ts_vectors := ts_vectors ++ [ts_vector] in
       let max_length :=
         if (max_length <? Z.of_nat (length ts_vector))%Z
         then Z.of_nat (length ts_vector) else max_length in
       Ok (max_length, ts_vectors))
    (0%Z, []) timeseries.

(** [np.full((rows, cols), fill)]: a negative dimension is a [ValueError]. *)
Definition np_full {A} (rows : nat) (cols : Z) (fill : A)
  : result (list (list A)) :=
  if (cols <? 0)%Z then Raise ValueError
  else Ok (replicate rows (replicate (Z.to_nat cols) fill)).

(** [row[start:stop] = src] for in-range bounds [start <= stop <= len(row)]:
    the source must have the length of the slice, or length one (broadcast). *)
Definition assign_slice {A} (row : list A) (start stop : nat) (src : list A)
  : result (list A) :=
  if decide (length src = stop - start) then
    Ok (take start row ++ src ++ drop stop row)
  else
    match src with
    | [x] => Ok (take start row ++ replicate (stop - start) x ++ drop stop row)
    | _ => Raise ValueError
    end.

(** The second loop body: write row [i] from its vector. *)
Definition write_row (max_length : nat) (padding : pyobj)
    (timeseries_matrix : list (list float32)) (iv : nat * list float32)
  : result (list (list float32)) :=
  let '(i, vector) := iv in
  let limit := Nat.min (length vector) max_length in
  match timeseries_matrix !! i with
  | None => Raise IndexError
  | Some row =>
      let* row' := (if eq_str padding "right"
               then assign_slice row 0 limit (take limit vector)
               else assign_slice row (max_length - limit) max_length
                      (take limit vector)) in
      Ok (<[ i := row' ]> timeseries_matrix)
  end.

Definition enumerate {A} (l : list A) : list (nat * A) := imap pair l.

Definition build_matrix (timeseries : list (option string))
    (tokenizer_name : pyobj) (length_limit : Z) (padding_value : pynum)
    (padding : pyobj) : result (list (list float32)) :=
  let* tokenizer := get_from_registry tokenizer_name in
  let* (_, ts_vectors) := build_vectors tokenizer padding_value timeseries in
  let max_length := length_limit in
  let* timeseries_matrix :=
    np_full (length timeseries) max_length (float32_of_number padding_value) in
  for_each (write_row (Z.to_nat max_length) padding)
    timeseries_matrix (enumerate ts_vectors).

(** ** The matrix profile *)

(** One row of the array returned by stumpy: the profile value and the
    three neighbour indices. [stumpy_mp[:, 0]] keeps the first column. *)
Record stump_row : Type := {
  mp_value : float64;
  mp_index : Z;
  mp_left_index : Z;
  mp_right_index : Z
}.

(** What the process finds outside the repository when it computes a
    profile: the CUDA runtime of numba and the two stumpy kernels. *)
Record world : Type := {
  cuda_is_available : bool;
  cuda_device_ids : list Z;
  gpu_stump : list float64 → Z → list Z → result (list stump_row);
  stump : list float64 → Z → result (list stump_row)
}.

Definition build_stumpy_mp (w : world) (column : list string) (seq_length : Z)
  : traced (list stump_row) :=
  ([Call_build_stumpy_mp column seq_length],
   match astype float64_of_str column with
   | Raise _ => Raise (Exception "Can't convert column to float")
   | Ok old_data =>
       if cuda_is_available w then
         let gpu_device_ids := cuda_device_ids w in
         gpu_stump w old_data seq_length gpu_device_ids
       else
         stump w old_data seq_length
   end).

(** A value of the sequence [mp]: a string of the column, or a float of the
    computed profile. *)
Inductive profile_value : Type :=
| VStr (s : string)
| VFloat (x : float64).

Definition py_str (v : profile_value) : string :=
  match v with
  | VStr s => s
  | VFloat x => float64_str x
  end.

Definition isnull (v : profile_value) : bool :=
  match v with
  | VStr _ => false
  | VFloat x => float64_isnan x
  end.

Definition nan_message : string :=
  "Matrix profile for the column contains NaN values. Try to increase the dataset size".

(** The part of [add_timeseries_matrix_profile] after [mp] is chosen. *)
Definition window_rows (mp : list profile_value) (rows : nat) (seq_length : Z)
  : result (list (option string)) :=
  let window_pad_length := (seq_length - 1)%Z in
  let* backfill_with := first_item mp in
  let window_pad := py_repeat backfill_with window_pad_length in
  let matrix_profile := window_pad ++ mp in
  if existsb isnull matrix_profile then Raise (Exception nan_message)
  else
    let window_data := py_repeat (@None string) window_pad_length in
    Ok (fold_left
          (fun window_data index =>
             window_data ++
             [Some (join " "
                      (map py_str
                         (py_slice matrix_profile
                            (index - window_pad_length) (index + 1))))])
          (py_range window_pad_length (Z.of_nat rows))
          window_data).

Definition add_timeseries_matrix_profile (w : world) (column : list string)
    (seq_length : Z) (preprocessing_parameters : gmap string pyobj)
  : traced (list (option string)) :=
  let+ mp :=
    (if truthy (default PNone (preprocessing_parameters !! "matrix_profile"))
     then
       let+ stumpy_mp := build_stumpy_mp w column seq_length in
       tret (map (fun r => VFloat (mp_value r)) stumpy_mp)
     else tret (map VStr column)) in
  lift (window_rows mp (length column) seq_length).

(** ** feature_data *)

(** The result carries the two dictionaries the call mutates; when the call
    raises, it does so before either assignment. [window_size] is the
    integer read of [seq_length]; the object itself is what gets stored. *)
Definition feature_data (w : world) (column : list string)
    (metadata preprocessing_parameters global_preprocessing_parameters
       : gmap string pyobj)
  : traced (list (list float32) * gmap string pyobj * gmap string pyobj) :=
  let max_timeseries_length :=
    default (PInt 1) (metadata !! "max_timeseries_length") in
  let seq_length := default (PInt 1) (preprocessing_parameters !! "window_size") in
  let+ window_size := lift (as_int seq_length) in
  let+ column :=
    add_timeseries_matrix_profile w column window_size
      preprocessing_parameters in
  lift (
    let offset := (window_size - 1)%Z in
    let* stored_length := as_int max_timeseries_length in
    let max_timeseries_length :=
      if (stored_length <? window_size)%Z then seq_length
      else max_timeseries_length in
    let* tokenizer_name := getitem preprocessing_parameters "tokenizer" in
    let* length_limit_v := getitem metadata "max_timeseries_length" in
    let* length_limit := as_int length_limit_v in
    let* padding_value_v := getitem preprocessing_parameters "padding_value" in
    let* padding_value := as_number padding_value_v in
    let* padding := getitem preprocessing_parameters "padding" in
    let* timeseries_data :=
      build_matrix column tokenizer_name length_limit padding_value padding in
    let metadata :=
      <[ "max_timeseries_length" := max_timeseries_length ]> metadata in
    let global_preprocessing_parameters :=
      <[ "offset" := PInt offset ]> global_preprocessing_parameters in
    Ok (timeseries_data, metadata, global_preprocessing_parameters)).

End Timeseries.

(** ** The callers of [feature_data] and the encoder configuration *)

Section Pipeline.

Context `{Libraries}.

(** The key [NAME] of [ludwig.constants], under which a feature dictionary
    holds the name of its column. *)
Variable NAME : string.

(** [str(v)]. *)
Definition py_obj_str (v : pyobj) : string :=
  match v with
  | PNone => "None"
  | PBool true => "True"
  | PBool false => "False"
  | PInt z => pretty z
  | PFloat x => float64_str x
  | PStr s => s
  end.

(** An entry used as a column label; labels are strings in the embedding. *)
Definition as_str (v : pyobj) : result string :=
  match v with
  | PStr s => Ok s
  | _ => Raise TypeError
  end.

(** [d[k]] on a dictionary of any value type. *)
Definition subscript {V} (d : gmap string V) (k : string) : result V :=
  match d !! k with
  | Some v => Ok v
  | None => Raise (KeyError k)
  end.

(** [add_feature_data]: the column [dataset_df[feature[NAME]]] is cast to
    strings, processed against the metadata of the feature, and the matrix
    is stored in [dataset] under the same name. [metadata[feature[NAME]]]
    is the dictionary [feature_data] mutates, so the outer dictionary sees
    the update. The column is the list of the values of the frame's column,
    read by position: the Series under its default index (for another
    index, see [add_timeseries_matrix_profile_series]). *)
Definition add_feature_data (w : world) (feature : gmap string pyobj)
    (dataset_df : gmap string (list pyobj))
    (dataset : gmap string (list (list float32)))
    (metadata : gmap string (gmap string pyobj))
    (preprocessing_parameters global_preprocessing_parameters
       : gmap string pyobj)
  : traced (gmap string (list (list float32))
            * gmap string (gmap string pyobj) * gmap string pyobj) :=
  let+ name := lift (let* v := getitem feature NAME in as_str v) in
  let+ column := lift (subscript dataset_df name) in
  let column := map py_obj_str column in
  let+ feature_metadata := lift (subscript metadata name) in
  let+ (timeseries_data, feature_metadata, global_preprocessing_parameters) :=
    feature_data w column feature_metadata preprocessing_parameters
      global_preprocessing_parameters in
  tret (<[ name := timeseries_data ]> dataset,
        <[ name := feature_metadata ]> metadata,
        global_preprocessing_parameters).

(** [TimeseriesInputFeature.update_config_with_metadata]. *)
Definition update_config_with_metadata
    (input_feature feature_metadata : gmap string pyobj)
  : result (gmap string pyobj) :=
  let* max_timeseries_length :=
    getitem feature_metadata "max_timeseries_length" in
  let input_feature :=
    <[ "max_sequence_length" := max_timeseries_length ]> input_feature in
  let input_feature := <[ "embedding_size" := PInt 1 ]> input_feature in
  let input_feature := <[ "should_embed" := PBool false ]> input_feature in
  Ok input_feature.

End Pipeline.

(** ** The column as a pandas Series *)

(** [add_feature_data] hands [feature_data] a pandas Series: its rows in
    order, each with its label of the (integer) index. A list or an array
    has no labels and is read by position, as above. *)
Abbreviation series := (list (Z * string)).



Section SeriesColumn.

Context `{Libraries}.


End SeriesColumn.

(** ** Backends (ludwig/backend/__init__.py) *)

Module Backend.

(** The two classes of [ludwig.backend]; an object is its class and its
    identity. *)
Inductive backend_class : Type := LocalBackend | DaskBackend.

Record backend : Type := {
  backend_class_of : backend_class;
  backend_id : nat
}.

Inductive error : Type :=
| KeyError (name : option string)
| ImportError.

(** The interpreter as the module sees it: the next fresh object identity,
    and whether [ludwig.backend.dask] can be imported. *)
Record interpreter : Type := {
  next_id : nat;
  dask_importable : bool
}.

(** [LOCAL_BACKEND = LocalBackend()], built once when the module loads: it
    takes identity 0 and leaves 1 as the next one. *)
Definition LOCAL_BACKEND : backend :=
  {| backend_class_of := LocalBackend; backend_id := 0 |}.

Definition loaded (dask : bool) : interpreter :=
  {| next_id := 1; dask_importable := dask |}.

Inductive factory : Type := create_dask_backend_fn | get_local_backend_fn.

Definition get_local_backend (st : interpreter)
  : (backend + error) * interpreter :=
  (inl LOCAL_BACKEND, st).

(** Modelled from the spec: the module [ludwig.backend.dask] and its class
    [DaskBackend], which [create_dask_backend] imports and instantiates,
    are not among the sources, and the spec does not describe them. The
    import is stood for by the flag [dask_importable] and the constructor
    by an object of class [DaskBackend] that takes the next identity;
    nothing below is a statement about what that constructor does. *)
Definition create_dask_backend (st : interpreter)
  : (backend + error) * interpreter :=
  if dask_importable st then
    (inl {| backend_class_of := DaskBackend; backend_id := next_id st |},
     {| next_id := S (next_id st); dask_importable := dask_importable st |})
  else (inr ImportError, st).

(** The registry: the keys ['dask'], ['local'] and [None]. *)
Definition backend_registry : gmap (option string) factory :=
  {[ Some "dask" := create_dask_backend_fn;
     Some "local" := get_local_backend_fn;
     None := get_local_backend_fn ]}.

Definition create_backend (name : option string) (st : interpreter)
  : (backend + error) * interpreter :=
  match backend_registry !! name with
  | Some create_dask_backend_fn => create_dask_backend st
  | Some get_local_backend_fn => get_local_backend st
  | None => (inr (KeyError name), st)
  end.

End Backend.

(** ** A concrete run

    Integral values stand for the floats; the registry knows the tokenizer
    ['space'], which splits a line at its blanks. *)

Fixpoint split_blanks (current : string) (line : string) : list string :=
  let flush := if String.eqb current "" then [] else [current] in
  match line with
  | EmptyString => flush
  | String c rest =>
      if Ascii.eqb c " "%char then flush ++ split_blanks "" rest
      else split_blanks (current +:+ String c EmptyString) rest
  end.

Definition decimal_digit (c : Ascii.ascii) : option Z :=
  let n := Ascii.nat_of_ascii c in
  if ((48 <=? n)%nat && (n <=? 57)%nat)%bool then Some (Z.of_nat (n - 48)) else None.

Fixpoint decimal_digits (acc : Z) (s : string) : option Z :=
  match s with
  | EmptyString => Some acc
  | String c rest =>
      match decimal_digit c with
      | Some d => decimal_digits (10 * acc + d)%Z rest
      | None => None
      end
  end.

Definition decimal (s : string) : option Z :=
  match s with
  | EmptyString => None
  | String "-"%char EmptyString => None
  | String "-"%char rest => Z.opp <$> decimal_digits 0 rest
  | _ => decimal_digits 0 s
  end.

Definition sample_libraries : Libraries := {|
  float64 := Z;
  float64_str := fun z => pretty z +:+ ".0";
  float64_bool := fun z => negb (z =? 0)%Z;
  float64_isnan := fun _ => false;
  float64_of_str := decimal;
  float32 := Z;
  float32_of_str := decimal;
  float32_of_int := fun z => z;
  float32_of_float := fun z => z;
  get_from_registry := fun name =>
    match name with
    | PStr "space" => Ok (split_blanks "")
    | _ => Raise ValueError
    end
|}.

(** A machine without CUDA whose [stump] accepts windows of 3 to [n] points
    and answers with a flat profile of [n - m + 1] rows. *)
Definition sample_world : @world sample_libraries := {|
  cuda_is_available := false;
  cuda_device_ids := [];
  gpu_stump := fun _ _ _ => Raise ValueError;
  stump := fun data m =>
    if ((m <? 3) || (Z.of_nat (length data) <? m))%Z then Raise ValueError
    else Ok (replicate (Z.to_nat (Z.of_nat (length data) - m + 1))
               (@Build_stump_row sample_libraries 0%Z 0%Z (-1)%Z (-1)%Z))
|}.

(** The preprocessing defaults of the mixin, and variations on them. *)
Definition sample_parameters
  : gmap string (pyval (@float64 sample_libraries)) :=
  {[ "timeseries_length_limit" := PInt 256;
     "padding_value" := PInt 0;
     "padding" := PStr "right";
     "tokenizer" := PStr "space" ]}.

(** A second concrete run, in which a float may be NaN ([None]) and stumpy
    answers with a profile whose first value is NaN. *)
Definition nan_libraries : Libraries := {|
  float64 := option Z;
  float64_str := fun x =>
    match x with Some z => pretty z +:+ ".0" | None => "nan" end;
  float64_bool := fun x =>
    match x with Some z => negb (z =? 0)%Z | None => true end;
  float64_isnan := fun x => match x with Some _ => false | None => true end;
  float64_of_str := fun s =>
    if String.eqb s "nan" then Some None else Some <$> decimal s;
  float32 := option Z;
  float32_of_str := fun s =>
    if String.eqb s "nan" then Some None else Some <$> decimal s;
  float32_of_int := fun z => Some z;
  float32_of_float := fun x => x;
  get_from_registry := fun name =>
    match name with
    | PStr "space" => Ok (split_blanks "")
    | _ => Raise ValueError
    end
|}.

Definition nan_world : @world nan_libraries := {|
  cuda_is_available := false;
  cuda_device_ids := [];
  gpu_stump := fun _ _ _ => Raise ValueError;
  stump := fun data m =>
    Ok [@Build_stump_row nan_libraries None 0%Z (-1)%Z (-1)%Z;
        @Build_stump_row nan_libraries (Some 0%Z) 0%Z (-1)%Z (-1)%Z]
|}.

Definition profile_parameters
  : gmap string (pyval (@float64 nan_libraries)) :=
  {[ "matrix_profile" := PBool true;
     "padding_value" := PInt 0;
     "padding" := PStr "right";
     "tokenizer" := PStr "space" ]}.

(** A data frame of one integer column and one string column, with a
    feature naming the first. *)
Definition sample_frame
  : gmap string (list (pyval (@float64 sample_libraries))) :=
  {[ "load" := [PInt 3; PInt 14; PInt 15];
     "note" := [PStr "a"; PStr "b"; PStr "c"] ]}.

Definition sample_feature : gmap string (pyval (@float64 sample_libraries)) :=
  {[ "name" := PStr "load"; "type" := PStr "timeseries" ]}.

Definition sample_metadata
  : gmap string (gmap string (pyval (@float64 sample_libraries))) :=
  {[ "load" := {[ "max_timeseries_length" := PInt 1 ]};
     "note" := ∅ ]}.

(** Another machine and other libraries over the same scalars: they differ
    from the first run everywhere except on the tokenizer ['space'] and on
    the conversion of decimal tokens. *)
Definition other_libraries : Libraries := {|
  float64 := Z;
  float64_str := fun _ => "?";
  float64_bool := fun _ => true;
  float64_isnan := fun _ => true;
  float64_of_str := fun _ => None;
  float32 := Z;
  float32_of_str := fun s => if String.eqb s "x" then Some 0%Z else decimal s;
  float32_of_int := fun z => z;
  float32_of_float := fun _ => 7%Z;
  get_from_registry := fun name =>
    match name with
    | PStr "space" => Ok (split_blanks "")
    | PStr "line" => Ok (fun s => [s])
    | _ => Raise ValueError
    end
|}.

Definition other_world : @world other_libraries := {|
  cuda_is_available := true;
  cuda_device_ids := [0%Z];
  gpu_stump := fun _ _ _ => Ok [];
  stump := fun _ _ => Raise TypeError
|}.

(** ** Vocabulary of the statements *)

(** A tokenizer fixed across two runs, each with its own registry and its
    own conversion of tokens: under the name the two registries raise
    alike, or build tokenizers that split the given rows alike, into tokens
    that convert alike. *)
Definition fixed_tokenizer {F64 F32 : Type}
    (registry1 registry2 : pyval F64 → result (string → list string))
    (cast1 cast2 : string → option F32)
    (name : pyval F64) (rows : list string) : Prop :=
  match registry1 name, registry2 name with
  | Ok tokenizer1, Ok tokenizer2 =>
      ∀ s, s ∈ rows →
        tokenizer1 s = tokenizer2 s ∧
        ∀ token, token ∈ tokenizer1 s → cast1 token = cast2 token
  | Raise e1, Raise e2 => e1 = e2
  | _, _ => False
  end.

Section Vocabulary.

Context `{Libraries}.

(** The row [build_matrix] leaves for a vector: [limit] cells of the vector
    on the side opposite to the padding. *)
Definition placed_row (max_length : nat) (padding : pyobj) (fill : float32)
    (vector : list float32) : list float32 :=
  let limit := Nat.min (length vector) max_length in
  if eq_str padding "right"
  then take limit vector ++ replicate (max_length - limit) fill
  else replicate (max_length - limit) fill ++ take limit vector.

(** The vectors of all rows, in order; the first failing row raises. *)
Fixpoint row_vectors (tokenizer : string → list string)
    (padding_value : pynum) (timeseries : list (option string))
  : result (list (list float32)) :=
  match timeseries with
  | [] => Ok []
  | ts :: rest =>
      let* v := row_vector tokenizer padding_value ts in
      let* vs := row_vectors tokenizer padding_value rest in
      Ok (v :: vs)
  end.

(** The [matrix_profile] option is on: the entry is present and truthy. *)
Definition matrix_profile_enabled (preprocessing_parameters : gmap string pyobj)
  : bool :=
  truthy (default PNone (preprocessing_parameters !! "matrix_profile")).

End Vocabulary.

(** * Properties *)

Section Properties.

Context `{Libraries}.

Lemma rbind_Ok {A B} (c : result A) (k : A → result B) b :
  rbind c k = Ok b ↔ ∃ a, c = Ok a ∧ k a = Ok b.
Proof.
  destruct c as [a|e]; simpl; split.
  - eauto.
  - by intros (a' & [= <-] & ?).
  - discriminate.
  - by intros (a' & ? & ?).
Qed.

(** *** The first loop of [build_matrix] *)

Lemma build_vectors_loop tokenizer padding_value timeseries :
  ∀ max_length acc,
    for_each
      (fun '(max_length, ts_vectors) ts =>
         let* ts_vector := row_vector tokenizer padding_value ts in
         let ts_vectors := ts_vectors ++ [ts_vector] in
         let max_length :=
           if (max_length <? Z.of_nat (length ts_vector))%Z
           then Z.of_nat (length ts_vector) else max_length in
         Ok (max_length, ts_vectors))
      (max_length, acc) timeseries
    = let* vs := row_vectors tokenizer padding_value timeseries in
      Ok (fold_left (fun m v => if (m <? Z.of_nat (length v))%Z
                                then Z.of_nat (length v) else m)
            vs max_length, acc ++ vs).
Proof.
  induction timeseries as [|ts rest IH]; intros max_length acc; simpl.
  - by rewrite app_nil_r.
  - destruct (row_vector tokenizer padding_value ts) as [v|e]; simpl; [|done].
    rewrite IH.
    destruct (row_vectors tokenizer padding_value rest) as [vs|e]; simpl;
      [|done].
    by rewrite <- app_assoc.
Qed.

Lemma build_vectors_vectors tokenizer padding_value timeseries :
  build_vectors tokenizer padding_value timeseries
  = let* vs := row_vectors tokenizer padding_value timeseries in
    Ok (fold_left (fun m v => if (m <? Z.of_nat (length v))%Z
                              then Z.of_nat (length v) else m) vs 0%Z, vs).
Proof. unfold build_vectors. by rewrite build_vectors_loop. Qed.

Lemma row_vectors_lookup tokenizer padding_value timeseries vs :
  row_vectors tokenizer padding_value timeseries = Ok vs →
  length vs = length timeseries ∧
  ∀ i ts, timeseries !! i = Some ts →
    ∃ v, vs !! i = Some v ∧ row_vector tokenizer padding_value ts = Ok v.
Proof.
  revert vs. induction timeseries as [|ts rest IH]; intros vs; simpl.
  - intros [= <-]. split; [done|]. intros i ts. by rewrite lookup_nil.
  - intros (v & Hv & (vs' & Hvs & [= <-])%rbind_Ok)%rbind_Ok.
    destruct (IH _ Hvs) as [Hlen Hrows]. split; [simpl; lia|].
    intros [|i] ts'; simpl.
    + intros [= <-]. eauto.
    + apply Hrows.
Qed.

Lemma row_vectors_total tokenizer padding_value timeseries :
  (∀ ts, ts ∈ timeseries →
     ∃ v, row_vector tokenizer padding_value ts = Ok v) →
  ∃ vs, row_vectors tokenizer padding_value timeseries = Ok vs.
Proof.
  induction timeseries as [|ts rest IH]; intros Hrows; simpl; [eauto|].
  destruct (Hrows ts) as [v ->]; [by left|].
  destruct IH as [vs ->]; [|simpl; eauto].
  intros ts' Hin. apply Hrows. by right.
Qed.

(** *** The second loop of [build_matrix] *)

Lemma assign_slice_exact {A} (row : list A) start stop src :
  length src = stop - start →
  assign_slice row start stop src = Ok (take start row ++ src ++ drop stop row).
Proof. intros Hlen. unfold assign_slice. by rewrite decide_True. Qed.

Lemma write_row_placed max_length padding fill matrix i vector :
  matrix !! i = Some (replicate max_length fill) →
  write_row max_length padding matrix (i, vector)
  = Ok (<[ i := placed_row max_length padding fill vector ]> matrix).
Proof.
  intros Hrow. unfold write_row, placed_row. rewrite Hrow.
  set (limit := Nat.min (length vector) max_length).
  assert (length (take limit vector) = limit) as Hlen
    by (rewrite length_take; lia).
  destruct (eq_str padding "right").
  - rewrite assign_slice_exact by lia. simpl.
    by rewrite drop_replicate.
  - rewrite assign_slice_exact by lia. simpl.
    rewrite take_replicate, drop_replicate.
    replace (Nat.min (max_length - limit) max_length)
      with (max_length - limit) by lia.
    replace (max_length - max_length) with 0 by lia.
    by rewrite app_nil_r.
Qed.

Lemma write_rows_placed max_length padding fill vectors :
  ∀ above,
    for_each (write_row max_length padding)
      (above ++ replicate (length vectors) (replicate max_length fill))
      (imap (fun i v => (length above + i, v)) vectors)
    = Ok (above ++ map (placed_row max_length padding fill) vectors).
Proof.
  induction vectors as [|v vs IH]; intros above; [done|].
  cbn [length replicate imap for_each].
  rewrite (write_row_placed _ _ fill).
  - cbn [rbind]. rewrite Nat.add_0_r.
    rewrite (insert_app_r_alt above _ (length above)) by lia.
    rewrite Nat.sub_diag. simpl.
    rewrite (cons_middle _ above), app_assoc.
    specialize (IH (above ++ [placed_row max_length padding fill v])).
    rewrite length_app in IH. simpl in IH.
    replace (above ++ placed_row max_length padding fill v
               :: map (placed_row max_length padding fill) vs)
      with ((above ++ [placed_row max_length padding fill v])
              ++ map (placed_row max_length padding fill) vs)
      by (by rewrite <- app_assoc).
    rewrite <- IH. f_equal.
    apply imap_ext. intros j x _. simpl. f_equal. lia.
  - rewrite Nat.add_0_r. by apply list_lookup_middle.
Qed.

Lemma build_matrix_placed timeseries tokenizer_name length_limit padding_value
    padding :
  build_matrix timeseries tokenizer_name length_limit padding_value padding
  = let* tokenizer := get_from_registry tokenizer_name in
    let* vectors := row_vectors tokenizer padding_value timeseries in
    if (length_limit <? 0)%Z then Raise ValueError
    else Ok (map (placed_row (Z.to_nat length_limit) padding
                    (float32_of_number padding_value)) vectors).
Proof.
  unfold build_matrix.
  destruct (get_from_registry tokenizer_name) as [tokenizer|e]; simpl; [|done].
  rewrite build_vectors_vectors.
  destruct (row_vectors tokenizer padding_value timeseries) as [vs|e] eqn:Hvs;
    simpl; [|done].
  unfold np_full. destruct (length_limit <? 0)%Z; simpl; [done|].
  apply row_vectors_lookup in Hvs as [Hlen _]. rewrite <- Hlen.
  unfold enumerate.
  exact (write_rows_placed _ _ _ vs []).
Qed.

Lemma build_matrix_returns timeseries tokenizer_name tokenizer length_limit
    padding_value padding :
  get_from_registry tokenizer_name = Ok tokenizer →
  (∀ ts, ts ∈ timeseries →
     ∃ v, row_vector tokenizer padding_value ts = Ok v) →
  (0 ≤ length_limit)%Z →
  ∃ vectors,
    row_vectors tokenizer padding_value timeseries = Ok vectors ∧
    build_matrix timeseries tokenizer_name length_limit padding_value padding
    = Ok (map (placed_row (Z.to_nat length_limit) padding
                 (float32_of_number padding_value)) vectors).
Proof.
  intros Hreg Hrows Hlimit.
  destruct (row_vectors_total _ _ _ Hrows) as [vs Hvs].
  exists vs. split; [done|].
  rewrite build_matrix_placed, Hreg. simpl. rewrite Hvs. simpl.
  by rewrite (proj2 (Z.ltb_ge _ _) Hlimit).
Qed.

Lemma build_matrix_inv timeseries tokenizer_name length_limit padding_value
    padding matrix :
  build_matrix timeseries tokenizer_name length_limit padding_value padding
  = Ok matrix →
  ∃ tokenizer vectors,
    get_from_registry tokenizer_name = Ok tokenizer ∧
    row_vectors tokenizer padding_value timeseries = Ok vectors ∧
    (0 ≤ length_limit)%Z ∧
    matrix = map (placed_row (Z.to_nat length_limit) padding
                    (float32_of_number padding_value)) vectors.
Proof.
  rewrite build_matrix_placed.
  intros (tokenizer & Hreg & (vs & Hvs & Hm)%rbind_Ok)%rbind_Ok.
  exists tokenizer, vs.
  destruct (length_limit <? 0)%Z eqn:Hneg; [done|].
  apply Z.ltb_ge in Hneg. by injection Hm as <-.
Qed.

(** *** Shape of a placed row *)

Lemma placed_row_length max_length padding fill vector :
  length (placed_row max_length padding fill vector) = max_length.
Proof.
  unfold placed_row. destruct (eq_str padding "right");
    rewrite length_app, length_take, length_replicate; lia.
Qed.

Lemma placed_row_right max_length padding fill vector j :
  eq_str padding "right" = true →
  placed_row max_length padding fill vector !! j
  = if decide (j < Nat.min (length vector) max_length) then vector !! j
    else if decide (j < max_length) then Some fill else None.
Proof.
  intros Hright. unfold placed_row. rewrite Hright.
  set (limit := Nat.min (length vector) max_length).
  assert (length (take limit vector) = limit) as Hlen
    by (rewrite length_take; lia).
  destruct (decide (j < limit)).
  - rewrite lookup_app_l by lia. by rewrite lookup_take_lt.
  - rewrite lookup_app_r by lia. rewrite Hlen.
    destruct (decide (j < max_length)).
    + apply lookup_replicate_2. lia.
    + apply lookup_replicate_None. lia.
Qed.

Lemma placed_row_left max_length padding fill vector j :
  eq_str padding "right" = false →
  placed_row max_length padding fill vector !! j
  = let limit := Nat.min (length vector) max_length in
    if decide (j < max_length - limit) then Some fill
    else if decide (j < max_length) then vector !! (j - (max_length - limit))
    else None.
Proof.
  intros Hleft. unfold placed_row. rewrite Hleft. simpl.
  set (limit := Nat.min (length vector) max_length).
  destruct (decide (j < max_length - limit)).
  - rewrite lookup_app_l by (rewrite length_replicate; lia).
    by apply lookup_replicate_2.
  - rewrite lookup_app_r by (rewrite length_replicate; lia).
    rewrite length_replicate.
    destruct (decide (j < max_length)).
    + apply lookup_take_lt. lia.
    + apply lookup_take_ge. lia.
Qed.

Lemma placed_row_right_prefix max_length padding fill vector :
  eq_str padding "right" = true →
  take (Nat.min (length vector) max_length)
    (placed_row max_length padding fill vector)
  = take (Nat.min (length vector) max_length) vector.
Proof.
  intros Hright. unfold placed_row. rewrite Hright.
  apply take_app_length'. rewrite length_take. lia.
Qed.

Lemma placed_row_left_suffix max_length padding fill vector :
  eq_str padding "right" = false →
  drop (max_length - Nat.min (length vector) max_length)
    (placed_row max_length padding fill vector)
  = take (Nat.min (length vector) max_length) vector.
Proof.
  intros Hleft. unfold placed_row. rewrite Hleft.
  apply drop_app_length'. by rewrite length_replicate.
Qed.

Lemma placed_row_fill max_length padding fill :
  placed_row max_length padding fill [fill] = replicate max_length fill.
Proof.
  unfold placed_row. simpl length.
  destruct max_length as [|n]; [by destruct (eq_str padding "right")|].
  replace (Nat.min 1 (S n)) with 1 by lia.
  replace (S n - 1) with n by lia.
  destruct (eq_str padding "right"); simpl; [done|].
  clear. induction n as [|n IH]; simpl; [done|]. by rewrite IH.
Qed.

(** Every row of a returned matrix is the placed vector of its cell. *)
Lemma build_matrix_rows timeseries tokenizer_name length_limit padding_value
    padding matrix :
  build_matrix timeseries tokenizer_name length_limit padding_value padding
  = Ok matrix →
  ∃ tokenizer,
    get_from_registry tokenizer_name = Ok tokenizer ∧
    (0 ≤ length_limit)%Z ∧
    length matrix = length timeseries ∧
    ∀ i ts, timeseries !! i = Some ts →
      ∃ vector,
        row_vector tokenizer padding_value ts = Ok vector ∧
        matrix !! i
        = Some (placed_row (Z.to_nat length_limit) padding
                  (float32_of_number padding_value) vector).
Proof.
  intros (tokenizer & vs & Hreg & Hvs & Hlimit & ->)%build_matrix_inv.
  apply row_vectors_lookup in Hvs as [Hlen Hrows].
  exists tokenizer. repeat split; [done|done|by rewrite length_map|].
  intros i ts Hts. destruct (Hrows _ _ Hts) as (v & Hv & Hrow).
  exists v. split; [done|]. by rewrite list_lookup_fmap, Hv.
Qed.

Lemma row_vector_falsy tokenizer padding_value ts :
  cell_truthy ts = false →
  row_vector tokenizer padding_value ts = Ok [float32_of_number padding_value].
Proof. unfold row_vector. destruct ts as [s|]; [|done]. by intros ->. Qed.

(** C1. For every column, every positive [length_limit] and every
    [padding_value], the matrix returned by [build_matrix] has one row per
    cell of the column and exactly [length_limit] columns, whatever the
    lengths of the tokenized rows, and the positions of a row that are not
    written from its vector hold the padding value. The call returns as
    soon as the tokenizer is registered and every row converts to float32. *)
Theorem build_matrix_fixed_width timeseries tokenizer_name length_limit
    padding_value padding :
  (0 < length_limit)%Z →
  (∀ tokenizer,
     get_from_registry tokenizer_name = Ok tokenizer →
     (∀ ts, ts ∈ timeseries →
        ∃ v, row_vector tokenizer padding_value ts = Ok v) →
     ∃ matrix,
       build_matrix timeseries tokenizer_name length_limit padding_value
         padding = Ok matrix) ∧
  (∀ matrix,
     build_matrix timeseries tokenizer_name length_limit padding_value padding
     = Ok matrix →
     length matrix = length timeseries ∧
     (∀ row, row ∈ matrix → length row = Z.to_nat length_limit) ∧
     ∃ tokenizer,
       get_from_registry tokenizer_name = Ok tokenizer ∧
       ∀ i ts, timeseries !! i = Some ts →
         ∃ vector row,
           row_vector tokenizer padding_value ts = Ok vector ∧
           matrix !! i = Some row ∧
           ∀ j : nat, (j < Z.to_nat length_limit)%nat →
             (if eq_str padding "right"
              then (Nat.min (length vector) (Z.to_nat length_limit) ≤ j)%nat
              else (j < Z.to_nat length_limit
                        - Nat.min (length vector) (Z.to_nat length_limit))%nat) →
             row !! j = Some (float32_of_number padding_value)).
Proof.
  intros Hpos. split.
  - intros tokenizer Hreg Hrows.
    destruct (build_matrix_returns timeseries tokenizer_name tokenizer
                length_limit padding_value padding) as (vs & _ & Hm);
      [done|done|lia|eauto].
  - intros matrix Hm.
    destruct (build_matrix_rows _ _ _ _ _ _ Hm)
      as (tokenizer & Hreg & _ & Hlen & Hrows).
    split; [done|]. split.
    + intros row (i & Hi)%list_elem_of_lookup.
      assert (i < length timeseries) as Hlt
        by (rewrite <- Hlen; by eapply lookup_lt_Some).
      apply lookup_lt_is_Some in Hlt as [ts Hts].
      destruct (Hrows _ _ Hts) as (v & _ & Hrow).
      rewrite Hi in Hrow. injection Hrow as ->. apply placed_row_length.
    + exists tokenizer. split; [done|]. intros i ts Hts.
      destruct (Hrows _ _ Hts) as (v & Hv & Hrow).
      exists v, (placed_row (Z.to_nat length_limit) padding
                   (float32_of_number padding_value) v).
      split; [done|]. split; [done|]. intros j Hj Hfree.
      destruct (eq_str padding "right") eqn:Hside.
      * rewrite placed_row_right by done.
        rewrite decide_False by lia. by rewrite decide_True.
      * rewrite placed_row_left by done. simpl. by rewrite decide_True.
Qed.

(** C6. In a returned matrix, with [padding='right'] the vector of row [i],
    cut to its first [limit = min(len(vector), length_limit)] cells, fills
    columns [0 .. limit-1]; with any other [padding] it fills the trailing
    columns [length_limit-limit .. length_limit-1]. *)
Theorem build_matrix_padding_side timeseries tokenizer_name length_limit
    padding_value padding matrix :
  build_matrix timeseries tokenizer_name length_limit padding_value padding
  = Ok matrix →
  ∃ tokenizer,
    get_from_registry tokenizer_name = Ok tokenizer ∧
    ∀ i ts, timeseries !! i = Some ts →
      ∃ vector row,
        row_vector tokenizer padding_value ts = Ok vector ∧
        matrix !! i = Some row ∧
        length row = Z.to_nat length_limit ∧
        let limit := Nat.min (length vector) (Z.to_nat length_limit) in
        if eq_str padding "right"
        then take limit row = take limit vector
        else drop (Z.to_nat length_limit - limit) row = take limit vector.
Proof.
  intros Hm.
  destruct (build_matrix_rows _ _ _ _ _ _ Hm)
    as (tokenizer & Hreg & _ & _ & Hrows).
  exists tokenizer. split; [done|]. intros i ts Hts.
  destruct (Hrows _ _ Hts) as (v & Hv & Hrow).
  eexists v, _. split; [done|]. split; [exact Hrow|].
  split; [apply placed_row_length|]. simpl.
  destruct (eq_str padding "right") eqn:Hside.
  - by apply placed_row_right_prefix.
  - by apply placed_row_left_suffix.
Qed.

(** C10. A falsy cell (an empty string, or [None]) never makes
    [build_matrix] fail: with a registered tokenizer, a non-negative limit
    and every non-empty string converting, the call returns; the vector of
    a falsy cell is [[padding_value]] and its row of the matrix holds the
    padding value in every column. *)
Theorem build_matrix_empty_rows timeseries tokenizer_name tokenizer
    length_limit padding_value padding :
  get_from_registry tokenizer_name = Ok tokenizer →
  (0 ≤ length_limit)%Z →
  (∀ s, Some s ∈ timeseries → s ≠ "" →
     ∃ v, astype float32_of_str (tokenizer s) = Ok v) →
  ∃ matrix,
    build_matrix timeseries tokenizer_name length_limit padding_value padding
    = Ok matrix ∧
    ∀ i ts, timeseries !! i = Some ts → cell_truthy ts = false →
      row_vector tokenizer padding_value ts
      = Ok [float32_of_number padding_value] ∧
      matrix !! i
      = Some (replicate (Z.to_nat length_limit)
                (float32_of_number padding_value)).
Proof.
  intros Hreg Hlimit Hconv.
  destruct (build_matrix_returns timeseries tokenizer_name tokenizer
              length_limit padding_value padding) as (vs & Hvs & Hm);
    [done| |done|].
  - intros [s|] Hin; [|by eexists].
    destruct (cell_truthy (Some s)) eqn:Htruthy.
    + unfold row_vector. rewrite Htruthy. apply Hconv; [done|].
      intros ->. discriminate.
    + rewrite row_vector_falsy by done. by eexists.
  - eexists. split; [exact Hm|]. intros i ts Hts Hfalsy.
    split; [by apply row_vector_falsy|].
    apply row_vectors_lookup in Hvs as [_ Hrows].
    destruct (Hrows _ _ Hts) as (v & Hv & Hrow).
    rewrite row_vector_falsy in Hrow by done. injection Hrow as <-.
    rewrite list_lookup_fmap, Hv. simpl. by rewrite placed_row_fill.
Qed.

(** *** The windows of [add_timeseries_matrix_profile] *)

Lemma fold_left_snoc {A B} (f : A → B) (xs : list A) :
  ∀ init, fold_left (fun acc x => acc ++ [f x]) xs init = init ++ map f xs.
Proof.
  induction xs as [|x xs IH]; intros init; simpl.
  - by rewrite app_nil_r.
  - rewrite IH. by rewrite <- app_assoc.
Qed.

Lemma window_rows_cons first rest rows seq_length :
  window_rows (first :: rest) rows seq_length
  = let window_pad_length := (seq_length - 1)%Z in
    let matrix_profile := py_repeat first window_pad_length ++ first :: rest in
    if existsb isnull matrix_profile then Raise (Exception nan_message)
    else Ok (py_repeat None window_pad_length
             ++ map (fun index =>
                       Some (join " "
                               (map py_str
                                  (py_slice matrix_profile
                                     (index - window_pad_length)
                                     (index + 1)))))
                  (py_range window_pad_length (Z.of_nat rows))).
Proof.
  unfold window_rows. cbn [first_item rbind].
  cbv zeta. destruct (existsb isnull _); [done|].
  by rewrite fold_left_snoc.
Qed.

Lemma window_rows_nil rows seq_length :
  window_rows [] rows seq_length = Raise IndexError.
Proof. done. Qed.

Lemma py_slice_inside {A} (l : list A) (start stop : Z) :
  (0 ≤ start)%Z → (start ≤ stop)%Z → (stop ≤ Z.of_nat (length l))%Z →
  py_slice l start stop
  = take (Z.to_nat (stop - start)) (drop (Z.to_nat start) l).
Proof.
  intros H0 H1 H2. unfold py_slice, slice_bound.
  rewrite !(proj2 (Z.ltb_ge _ _)) by lia.
  by rewrite !Z.min_l by lia.
Qed.

Lemma isnull_strings (strings : list string) :
  existsb isnull (map VStr strings) = false.
Proof. induction strings as [|x xs IH]; simpl; [done|]. exact IH. Qed.

Lemma isnull_repeat v n :
  isnull v = false → existsb isnull (py_repeat v n) = false.
Proof.
  intros Hv. unfold py_repeat.
  induction (Z.to_nat n) as [|k IH]; simpl; [done|]. by rewrite Hv.
Qed.

(** The two ways [mp] is chosen. *)
Lemma profile_disabled w column seq_length preprocessing_parameters :
  matrix_profile_enabled preprocessing_parameters = false →
  add_timeseries_matrix_profile w column seq_length preprocessing_parameters
  = ([], window_rows (map VStr column) (length column) seq_length).
Proof.
  unfold matrix_profile_enabled, add_timeseries_matrix_profile.
  by intros ->.
Qed.

Lemma profile_enabled w column seq_length preprocessing_parameters :
  matrix_profile_enabled preprocessing_parameters = true →
  add_timeseries_matrix_profile w column seq_length preprocessing_parameters
  = ([Call_build_stumpy_mp column seq_length],
     let* stumpy_mp := (build_stumpy_mp w column seq_length).2 in
     window_rows (map (fun r => VFloat (mp_value r)) stumpy_mp)
       (length column) seq_length).
Proof.
  unfold matrix_profile_enabled, add_timeseries_matrix_profile.
  intros ->. unfold build_stumpy_mp. cbn [tbind snd].
  by destruct (match astype float64_of_str column with
               | Ok old_data => _ | Raise _ => _ end).
Qed.

Lemma window_rows_returns first rest rows seq_length :
  existsb isnull (first :: rest) = false →
  window_rows (first :: rest) rows seq_length
  = Ok (py_repeat None (seq_length - 1)
        ++ map (fun index =>
                  Some (join " "
                          (map py_str
                             (py_slice
                                (py_repeat first (seq_length - 1)
                                 ++ first :: rest)
                                (index - (seq_length - 1)) (index + 1)))))
             (py_range (seq_length - 1) (Z.of_nat rows))).
Proof.
  intros Hnull. rewrite window_rows_cons. cbv zeta.
  rewrite existsb_app, Hnull, isnull_repeat; [done|].
  simpl in Hnull. by apply orb_false_elim in Hnull as [-> _].
Qed.

Lemma window_rows_inv mp rows seq_length window_data :
  window_rows mp rows seq_length = Ok window_data →
  ∃ first rest,
    mp = first :: rest ∧ existsb isnull (first :: rest) = false.
Proof.
  destruct mp as [|first rest]; [done|].
  rewrite window_rows_cons. cbv zeta.
  rewrite existsb_app.
  destruct (existsb isnull (py_repeat first _)); [done|]. simpl.
  destruct (isnull first || existsb isnull rest) eqn:Hnull; [done|].
  intros _. by exists first, rest.
Qed.

(** Length and cells of the list of windows, for a window of size >= 1. *)
Lemma windows_length (padded : list profile_value) rows seq_length :
  (1 ≤ seq_length)%Z →
  length
    (py_repeat (@None string) (seq_length - 1)
     ++ map (fun index =>
               Some (join " "
                       (map py_str
                          (py_slice padded
                             (index - (seq_length - 1)) (index + 1)))))
          (py_range (seq_length - 1) (Z.of_nat rows)))
  = Nat.max rows (Z.to_nat (seq_length - 1)).
Proof.
  intros Hs. unfold py_repeat, py_range.
  rewrite length_app, length_replicate, length_map, length_seqZ. lia.
Qed.

Lemma windows_lookup_pad (padded : list profile_value) rows seq_length i :
  (i < Z.to_nat (seq_length - 1))%nat →
  (py_repeat (@None string) (seq_length - 1)
   ++ map (fun index =>
             Some (join " "
                     (map py_str
                        (py_slice padded
                           (index - (seq_length - 1)) (index + 1)))))
        (py_range (seq_length - 1) (Z.of_nat rows))) !! i
  = Some None.
Proof.
  intros Hi. unfold py_repeat.
  rewrite lookup_app_l by (by rewrite length_replicate).
  by apply lookup_replicate_2.
Qed.

Lemma windows_lookup_window (padded : list profile_value) rows seq_length i :
  (1 ≤ seq_length)%Z →
  (Z.to_nat (seq_length - 1) ≤ i)%nat → (i < rows)%nat →
  (py_repeat (@None string) (seq_length - 1)
   ++ map (fun index =>
             Some (join " "
                     (map py_str
                        (py_slice padded
                           (index - (seq_length - 1)) (index + 1)))))
        (py_range (seq_length - 1) (Z.of_nat rows))) !! i
  = Some (Some (join " "
                  (map py_str
                     (py_slice padded
                        (Z.of_nat i - (seq_length - 1)) (Z.of_nat i + 1))))).
Proof.
  intros Hs Hlo Hhi. unfold py_repeat, py_range.
  rewrite lookup_app_r by (rewrite length_replicate; lia).
  rewrite length_replicate.
  rewrite list_lookup_fmap.
  rewrite lookup_seqZ_lt by lia. simpl.
  do 5 f_equal; lia.
Qed.

(** A window that lies inside the padded profile holds exactly
    [seq_length] consecutive values, ending at its own index. *)
Lemma window_values {A} (padded : list A) seq_length i :
  (1 ≤ seq_length)%Z →
  (Z.to_nat (seq_length - 1) ≤ i)%nat → (i < length padded)%nat →
  let values :=
    py_slice padded (Z.of_nat i - (seq_length - 1)) (Z.of_nat i + 1) in
  length values = Z.to_nat seq_length ∧
  ∀ k : nat, (k < Z.to_nat seq_length)%nat →
    values !! k = padded !! (i - Z.to_nat (seq_length - 1) + k)%nat.
Proof.
  intros Hs Hlo Hhi. cbv zeta.
  rewrite py_slice_inside by lia.
  replace (Z.to_nat (Z.of_nat i + 1 - (Z.of_nat i - (seq_length - 1))))
    with (Z.to_nat seq_length) by lia.
  replace (Z.to_nat (Z.of_nat i - (seq_length - 1)))
    with (i - Z.to_nat (seq_length - 1))%nat by lia.
  split.
  - rewrite length_take, length_drop. lia.
  - intros k Hk. rewrite lookup_take_lt by done. by rewrite lookup_drop.
Qed.

(** *** Runs of [add_timeseries_matrix_profile] *)

Lemma strings_first column :
  column ≠ [] →
  ∃ first rest, column = first :: rest ∧
    map VStr column = VStr first :: map VStr rest.
Proof. destruct column as [|first rest]; [done|]. intros _. by eexists _, _. Qed.

(** From a profile that is present and free of nulls, the call returns the
    windows over it. *)
Lemma profile_run w column seq_length preprocessing_parameters trace mp :
  (matrix_profile_enabled preprocessing_parameters = false ∧
   trace = [] ∧ mp = map VStr column) ∨
  (matrix_profile_enabled preprocessing_parameters = true ∧
   ∃ stumpy_mp,
     build_stumpy_mp w column seq_length = (trace, Ok stumpy_mp) ∧
     mp = map (fun r => VFloat (mp_value r)) stumpy_mp) →
  add_timeseries_matrix_profile w column seq_length preprocessing_parameters
  = (trace, window_rows mp (length column) seq_length).
Proof.
  intros [(Hoff & -> & ->)|(Hon & stumpy_mp & Hbuild & ->)].
  - by apply profile_disabled.
  - rewrite profile_enabled by done. rewrite Hbuild. simpl.
    unfold build_stumpy_mp in Hbuild. by injection Hbuild as <- _.
Qed.

(** What a returning call has computed. *)
Lemma profile_run_inv w column seq_length preprocessing_parameters trace
    window_data :
  add_timeseries_matrix_profile w column seq_length preprocessing_parameters
  = (trace, Ok window_data) →
  ∃ first rest,
    existsb isnull (first :: rest) = false ∧
    window_data
    = py_repeat None (seq_length - 1)
      ++ map (fun index =>
                Some (join " "
                        (map py_str
                           (py_slice
                              (py_repeat first (seq_length - 1)
                               ++ first :: rest)
                              (index - (seq_length - 1)) (index + 1)))))
           (py_range (seq_length - 1) (Z.of_nat (length column))).
Proof.
  destruct (matrix_profile_enabled preprocessing_parameters) eqn:Hflag.
  - rewrite profile_enabled by done. intros [= _ Hrun].
    apply rbind_Ok in Hrun as (stumpy_mp & _ & Hrun).
    destruct (window_rows_inv _ _ _ _ Hrun) as (first & rest & Hmp & Hnull).
    exists first, rest. split; [done|].
    rewrite Hmp, window_rows_returns in Hrun by done. by injection Hrun as <-.
  - rewrite profile_disabled by done. intros [= _ Hrun].
    destruct (window_rows_inv _ _ _ _ Hrun) as (first & rest & Hmp & Hnull).
    exists first, rest. split; [done|].
    rewrite Hmp, window_rows_returns in Hrun by done. by injection Hrun as <-.
Qed.

(** C2. For a non-empty column and a window of size [seq_length >= 1], the
    returned list holds [None] at the indexes below [seq_length - 1], and at
    every later index [i] of the column the space-joined string of the
    [seq_length] consecutive values of the padded profile that end at [i];
    the padded profile is the profile prefixed with [seq_length - 1] copies
    of its first value. Without [matrix_profile] the profile is the column
    and the call always returns; with it, the call returns whenever stumpy
    answers with a profile free of NaN that reaches the end of the column. *)
Theorem sliding_windows w column seq_length preprocessing_parameters trace mp :
  column ≠ [] → (1 ≤ seq_length)%Z →
  (matrix_profile_enabled preprocessing_parameters = false ∧
   trace = [] ∧ mp = map VStr column) ∨
  (matrix_profile_enabled preprocessing_parameters = true ∧
   (∃ stumpy_mp,
      build_stumpy_mp w column seq_length = (trace, Ok stumpy_mp) ∧
      mp = map (fun r => VFloat (mp_value r)) stumpy_mp) ∧
   mp ≠ [] ∧ existsb isnull mp = false ∧
   (length column ≤ Z.to_nat (seq_length - 1) + length mp)%nat) →
  ∃ first window_data,
    mp !! 0%nat = Some first ∧
    add_timeseries_matrix_profile w column seq_length preprocessing_parameters
    = (trace, Ok window_data) ∧
    let pad := Z.to_nat (seq_length - 1) in
    let padded := replicate pad first ++ mp in
    (∀ i : nat, (i < pad)%nat → window_data !! i = Some None) ∧
    ∀ i : nat, (pad ≤ i)%nat → (i < length column)%nat →
      ∃ values,
        length values = Z.to_nat seq_length ∧
        (∀ k : nat, (k < Z.to_nat seq_length)%nat →
           values !! k = padded !! (i - pad + k)%nat) ∧
        window_data !! i = Some (Some (join " " (map py_str values))).
Proof.
  intros Hcol Hs Hmp.
  assert (∃ first rest, mp = first :: rest ∧
            existsb isnull mp = false ∧
            (length column ≤ Z.to_nat (seq_length - 1) + length mp)%nat)
    as (first & rest & Hmp' & Hnull & Hcover).
  { destruct Hmp as [(_ & _ & ->)|(_ & _ & Hne & Hnull & Hcover)].
    - destruct (strings_first _ Hcol) as (c & cs & _ & Heq).
      exists (VStr c), (map VStr cs). split; [done|].
      split; [apply isnull_strings|]. rewrite length_map. lia.
    - destruct mp as [|first rest]; [done|]. by exists first, rest. }
  assert (add_timeseries_matrix_profile w column seq_length
            preprocessing_parameters
          = (trace, window_rows mp (length column) seq_length)) as Hrun.
  { apply profile_run. destruct Hmp as [?|(? & ? & _)]; [by left|by right]. }
  subst mp. rewrite window_rows_returns in Hrun by done.
  eexists first, _. split; [done|]. split; [exact Hrun|]. cbv zeta.
  split.
  - intros i Hi. by apply windows_lookup_pad.
  - intros i Hlo Hhi.
    destruct (window_values
                (replicate (Z.to_nat (seq_length - 1)) first ++ first :: rest)
                seq_length i) as [Hlen Hvals]; [done|done| |].
    { rewrite length_app, length_replicate. lia. }
    eexists. split; [exact Hlen|]. split; [exact Hvals|].
    by apply windows_lookup_window.
Qed.

Lemma matrix_profile_enabled_entry (preprocessing_parameters : gmap string pyobj) :
  matrix_profile_enabled preprocessing_parameters = true ↔
  ∃ v, preprocessing_parameters !! "matrix_profile" = Some v ∧ truthy v = true.
Proof.
  unfold matrix_profile_enabled.
  destruct (preprocessing_parameters !! "matrix_profile") as [v|]; simpl.
  - split; [eauto|]. by intros (v' & [= <-] & ?).
  - split; [done|]. by intros (v' & ? & ?).
Qed.

Lemma py_slice_map {A B} (f : A → B) (l : list A) start stop :
  py_slice (map f l) start stop = map f (py_slice l start stop).
Proof.
  unfold py_slice. rewrite length_map.
  change (map f) with (fmap (M:=list) f).
  by rewrite fmap_take, fmap_drop.
Qed.

Lemma py_str_strings (strings : list string) :
  map py_str (map VStr strings) = strings.
Proof. induction strings as [|x xs IH]; simpl; [done|]. by rewrite IH. Qed.

Lemma padded_strings first n (column : list string) :
  py_repeat (VStr first) n ++ map VStr column
  = map VStr (py_repeat first n ++ column).
Proof.
  unfold py_repeat. rewrite map_app. f_equal.
  induction (Z.to_nat n) as [|k IH]; simpl; [done|]. by rewrite IH.
Qed.

(** C3. [add_timeseries_matrix_profile] calls [build_stumpy_mp] exactly when
    the parameters hold a truthy ['matrix_profile'] entry; otherwise nothing
    is called and the windows are cut from the values of the column
    themselves, prefixed with copies of the first one. *)
Theorem matrix_profile_optional w column seq_length
    (preprocessing_parameters : gmap string pyobj) :
  let run :=
    add_timeseries_matrix_profile w column seq_length
      preprocessing_parameters in
  let enabled :=
    ∃ v, preprocessing_parameters !! "matrix_profile" = Some v ∧
         truthy v = true in
  (Call_build_stumpy_mp column seq_length ∈ run.1 ↔ enabled) ∧
  (enabled ∧ run.1 = [Call_build_stumpy_mp column seq_length] ∨
   ¬ enabled ∧ run.1 = [] ∧
   ((column = [] ∧ run.2 = Raise IndexError) ∨
    ∃ first rest,
      column = first :: rest ∧
      run.2
      = Ok (py_repeat None (seq_length - 1)
            ++ map (fun index =>
                      Some (join " "
                              (py_slice
                                 (py_repeat first (seq_length - 1) ++ column)
                                 (index - (seq_length - 1)) (index + 1))))
                 (py_range (seq_length - 1) (Z.of_nat (length column)))))).
Proof.
  cbv zeta. rewrite <- matrix_profile_enabled_entry.
  destruct (matrix_profile_enabled preprocessing_parameters) eqn:Hflag.
  - rewrite profile_enabled by done. simpl. split.
    + split; [done|]. intros _. by left.
    + by left.
  - rewrite profile_disabled by done. simpl. split.
    + split; [|done]. by intros ?%elem_of_nil.
    + right. split; [done|]. split; [done|].
      destruct column as [|first rest]; [by left|right].
      exists first, rest. split; [done|].
      change (map VStr (first :: rest))
        with (VStr first :: map VStr rest).
      rewrite window_rows_returns
        by apply (isnull_strings (first :: rest)).
      do 2 f_equal. apply map_ext. intros index. do 2 f_equal.
      change (VStr first :: map VStr rest)
        with (map VStr (first :: rest)).
      by rewrite padded_strings, py_slice_map, py_str_strings.
Qed.

(** *** Runs of [feature_data] *)

Lemma getitem_Ok (d : gmap string pyobj) k v :
  getitem d k = Ok v ↔ d !! k = Some v.
Proof.
  unfold getitem. destruct (d !! k); split; intros Heq;
    by try injection Heq as ->.
Qed.

(** What a returning call has read, computed and stored. *)
Lemma feature_data_inv w column
    (metadata preprocessing_parameters global_preprocessing_parameters
       : gmap string pyobj)
    trace timeseries_data metadata' global' :
  feature_data w column metadata preprocessing_parameters
    global_preprocessing_parameters
  = (trace, Ok (timeseries_data, metadata', global')) →
  ∃ seq_length window_data stored max_timeseries_length tokenizer_name
    padding_value_v padding_value padding,
    as_int (default (PInt 1) (preprocessing_parameters !! "window_size"))
    = Ok seq_length ∧
    add_timeseries_matrix_profile w column seq_length preprocessing_parameters
    = (trace, Ok window_data) ∧
    metadata !! "max_timeseries_length" = Some stored ∧
    as_int stored = Ok max_timeseries_length ∧
    preprocessing_parameters !! "tokenizer" = Some tokenizer_name ∧
    preprocessing_parameters !! "padding_value" = Some padding_value_v ∧
    as_number padding_value_v = Ok padding_value ∧
    preprocessing_parameters !! "padding" = Some padding ∧
    build_matrix window_data tokenizer_name max_timeseries_length
      padding_value padding = Ok timeseries_data ∧
    metadata'
    = <[ "max_timeseries_length"
         := if (max_timeseries_length <? seq_length)%Z
            then default (PInt 1) (preprocessing_parameters !! "window_size")
            else stored ]> metadata ∧
    global'
    = <[ "offset" := PInt (seq_length - 1) ]> global_preprocessing_parameters.
Proof.
  unfold feature_data.
  destruct (as_int (default (PInt 1)
                      (preprocessing_parameters !! "window_size")))
    as [seq_length|e]; cbn [lift tbind]; [|by intros [=]].
  destruct (add_timeseries_matrix_profile w column seq_length
              preprocessing_parameters) as [tr [window_data|e]] eqn:Hwindows;
    cbn [lift tbind app]; [|by intros [=]].
  rewrite app_nil_r. intros [= -> Hrun].
  apply rbind_Ok in Hrun as (m0 & Hm0 & Hrun).
  apply rbind_Ok in Hrun as (tokenizer_name & Hname%getitem_Ok & Hrun).
  apply rbind_Ok in Hrun as (stored & Hstored%getitem_Ok & Hrun).
  apply rbind_Ok in Hrun as (limit & Hlimit & Hrun).
  apply rbind_Ok in Hrun as (pv_v & Hpv_v%getitem_Ok & Hrun).
  apply rbind_Ok in Hrun as (pv & Hpv & Hrun).
  apply rbind_Ok in Hrun as (padding & Hpadding%getitem_Ok & Hrun).
  apply rbind_Ok in Hrun as (m & Hm & Hrun).
  injection Hrun as <- <- <-.
  rewrite Hstored in Hm0. simpl in Hm0.
  rewrite Hlimit in Hm0. injection Hm0 as <-.
  exists seq_length, window_data, stored, limit, tokenizer_name, pv_v, pv,
    padding.
  repeat (split; [done|]). by rewrite Hstored.
Qed.

(** The width of the returned matrix is the stored length the call found,
    and the length it stores is the larger of that one and the window. *)
Lemma feature_data_width w column
    (metadata preprocessing_parameters global_preprocessing_parameters
       : gmap string pyobj)
    trace timeseries_data metadata' global' :
  feature_data w column metadata preprocessing_parameters
    global_preprocessing_parameters
  = (trace, Ok (timeseries_data, metadata', global')) →
  ∃ seq_length stored max_timeseries_length,
    as_int (default (PInt 1) (preprocessing_parameters !! "window_size"))
    = Ok seq_length ∧
    metadata !! "max_timeseries_length" = Some stored ∧
    as_int stored = Ok max_timeseries_length ∧
    (∀ row, row ∈ timeseries_data →
       length row = Z.to_nat max_timeseries_length) ∧
    ∃ stored',
      metadata' !! "max_timeseries_length" = Some stored' ∧
      as_int stored' = Ok (Z.max max_timeseries_length seq_length).
Proof.
  intros (seq_length & window_data & stored & limit & name & pv_v & pv
          & padding & Hs & _ & Hstored & Hlimit & _ & _ & _ & _ & Hm & -> & _)
         %feature_data_inv.
  exists seq_length, stored, limit. repeat (split; [done|]). split.
  - apply build_matrix_inv in Hm as (tok & vs & _ & _ & _ & ->).
    intros row (v & -> & _)%list_elem_of_fmap. apply placed_row_length.
  - eexists. split; [by rewrite lookup_insert_eq|].
    destruct (limit <? seq_length)%Z eqn:Hlt.
    + apply Z.ltb_lt in Hlt. rewrite Hs. f_equal. lia.
    + apply Z.ltb_ge in Hlt. rewrite Hlimit. f_equal. lia.
Qed.

(** C5, as amended. For a non-empty column and a window size with
    [1 <= seq_length <= len(column) + 1], the list returned by
    [add_timeseries_matrix_profile] has exactly [len(column)] entries, and
    so has the matrix returned by [feature_data]; without [matrix_profile]
    the first call does return. *)
Theorem row_count_preserved w column
    (preprocessing_parameters : gmap string pyobj) :
  column ≠ [] →
  (∀ seq_length trace window_data,
     (1 ≤ seq_length ≤ Z.of_nat (length column) + 1)%Z →
     add_timeseries_matrix_profile w column seq_length
       preprocessing_parameters = (trace, Ok window_data) →
     length window_data = length column) ∧
  (∀ seq_length,
     matrix_profile_enabled preprocessing_parameters = false →
     ∃ window_data,
       add_timeseries_matrix_profile w column seq_length
         preprocessing_parameters = ([], Ok window_data)) ∧
  (∀ seq_length metadata global_preprocessing_parameters trace
      timeseries_data metadata' global',
     as_int (default (PInt 1) (preprocessing_parameters !! "window_size"))
     = Ok seq_length →
     (1 ≤ seq_length ≤ Z.of_nat (length column) + 1)%Z →
     feature_data w column metadata preprocessing_parameters
       global_preprocessing_parameters
     = (trace, Ok (timeseries_data, metadata', global')) →
     length timeseries_data = length column).
Proof.
  intros Hcol.
  assert (∀ seq_length trace window_data,
            (1 ≤ seq_length ≤ Z.of_nat (length column) + 1)%Z →
            add_timeseries_matrix_profile w column seq_length
              preprocessing_parameters = (trace, Ok window_data) →
            length window_data = length column) as Hcount.
  { intros seq_length trace window_data Hs
      (first & rest & _ & ->)%profile_run_inv.
    rewrite windows_length by lia. lia. }
  split; [exact Hcount|]. split.
  - intros seq_length Hoff. rewrite profile_disabled by done.
    destruct (strings_first _ Hcol) as (first & rest & _ & ->).
    rewrite window_rows_returns
      by apply (isnull_strings (first :: rest)).
    by eexists.
  - intros seq_length metadata global_preprocessing_parameters trace
      timeseries_data metadata' global' Hs Hbound
      (s' & window_data & stored & limit & name & pv_v & pv & padding
       & Hs' & Hwindows & _ & _ & _ & _ & _ & _ & Hm & _)%feature_data_inv.
    rewrite Hs in Hs'. injection Hs' as <-.
    apply build_matrix_rows in Hm as (_ & _ & _ & -> & _).
    by eapply Hcount.
Qed.




(** *** [get_feature_meta] *)

Lemma max_length_loop (tokenizer : string → list string) column :
  ∀ start,
    let longest :=
      fold_left
        (fun max_length timeseries =>
           Z.max max_length (Z.of_nat (length (tokenizer timeseries))))
        column start in
    (start ≤ longest)%Z ∧
    (∀ ts, ts ∈ column → (Z.of_nat (length (tokenizer ts)) ≤ longest)%Z) ∧
    (longest = start ∨
     ∃ ts, ts ∈ column ∧ longest = Z.of_nat (length (tokenizer ts))).
Proof.
  induction column as [|x xs IH]; intros start; simpl.
  - split; [lia|]. split; [|by left]. by intros ts ?%elem_of_nil.
  - destruct (IH (Z.max start (Z.of_nat (length (tokenizer x)))))
      as (Hge & Hall & Hwitness).
    split; [lia|]. split.
    + intros ts [->|Hin]%elem_of_cons; [lia|by apply Hall].
    + destruct Hwitness as [Heq|(ts & Hin & Heq)].
      * destruct (Z.max_spec start (Z.of_nat (length (tokenizer x))))
          as [[_ Hmax]|[_ Hmax]].
        -- right. exists x. split; [by left|]. by rewrite Heq.
        -- left. by rewrite Heq.
      * right. exists ts. split; [by right|done].
Qed.

(** C8, as amended. With a registered tokenizer and an integer limit,
    [get_feature_meta] returns [{'max_timeseries_length': min(limit, L)}],
    where [L] is the largest tokenized length of a row (0 when there is
    none); the stored value never exceeds the limit, and for an empty
    column it is [min(limit, 0)]: 0 when the limit is not negative. *)
Theorem get_feature_meta_length (column : list string)
    (preprocessing_parameters : gmap string pyobj) name tokenizer limit :
  preprocessing_parameters !! "tokenizer" = Some name →
  get_from_registry name = Ok tokenizer →
  preprocessing_parameters !! "timeseries_length_limit" = Some (PInt limit) →
  ∃ L,
    (∀ ts, ts ∈ column → (Z.of_nat (length (tokenizer ts)) ≤ L)%Z) ∧
    ((column = [] ∧ L = 0%Z) ∨
     ∃ ts, ts ∈ column ∧ L = Z.of_nat (length (tokenizer ts))) ∧
    get_feature_meta column preprocessing_parameters
    = Ok {[ "max_timeseries_length" := PInt (Z.min limit L) ]} ∧
    (Z.min limit L ≤ limit)%Z ∧
    (column = [] → Z.min limit L = Z.min limit 0 ∧
                   ((0 ≤ limit)%Z → Z.min limit L = 0%Z)).
Proof.
  intros Hname Hreg Hlimit.
  exists (max_tokenized_length tokenizer column).
  destruct (max_length_loop tokenizer column 0%Z) as (Hge & Hall & Hwitness).
  fold (max_tokenized_length tokenizer column) in Hge, Hall, Hwitness.
  split; [exact Hall|]. split; [|split; [|split]].
  - destruct Hwitness as [Heq|?]; [|by right].
    destruct column as [|x xs]; [by left|right].
    exists x. split; [by left|].
    specialize (Hall x (list_elem_of_here _ _)). lia.
  - unfold get_feature_meta, getitem. rewrite Hname. simpl.
    rewrite Hreg. simpl. by rewrite Hlimit.
  - lia.
  - intros ->. unfold max_tokenized_length. simpl. split; [done|lia].
Qed.

(** The windows over a raw column, written on strings alone. *)
Lemma raw_window_rows (column : list string) rows seq_length :
  window_rows (map VStr column) rows seq_length
  = match column with
    | [] => Raise IndexError
    | first :: _ =>
        Ok (py_repeat None (seq_length - 1)
            ++ map (fun index =>
                      Some (join " "
                              (py_slice
                                 (py_repeat first (seq_length - 1) ++ column)
                                 (index - (seq_length - 1)) (index + 1))))
                 (py_range (seq_length - 1) (Z.of_nat rows)))
    end.
Proof.
  destruct column as [|first rest]; [done|].
  change (map VStr (first :: rest)) with (VStr first :: map VStr rest).
  rewrite window_rows_returns by apply (isnull_strings (first :: rest)).
  do 2 f_equal. apply map_ext. intros index. do 2 f_equal.
  change (VStr first :: map VStr rest) with (map VStr (first :: rest)).
  by rewrite padded_strings, py_slice_map, py_str_strings.
Qed.

End Properties.

(** ** Two runs *)

Lemma max_tokenized_length_ext (tokenizer1 tokenizer2 : string → list string)
    (column : list string) :
  (∀ s, s ∈ column → tokenizer1 s = tokenizer2 s) →
  max_tokenized_length tokenizer1 column
  = max_tokenized_length tokenizer2 column.
Proof.
  unfold max_tokenized_length. generalize 0%Z.
  induction column as [|x xs IH]; intros start Hsame; simpl; [done|].
  rewrite (Hsame x) by apply list_elem_of_here.
  apply IH. intros s Hin. apply Hsame. by right.
Qed.

Lemma astype_ext {X Y} (conv1 conv2 : X → option Y) xs :
  (∀ x, x ∈ xs → conv1 x = conv2 x) →
  astype conv1 xs = astype conv2 xs.
Proof.
  induction xs as [|x xs IH]; intros Hsame; simpl; [done|].
  rewrite (Hsame x) by apply list_elem_of_here.
  destruct (conv2 x); [|done].
  rewrite IH; [done|]. intros x' Hin. apply Hsame. by right.
Qed.

Section TwoRuns.

(** Two runs share the scalar types and nothing else: each has its own
    library operations and its own registry. *)
Variables F64 F32 : Type.
Variables (str1 str2 : F64 → string) (bool1 bool2 nan1 nan2 : F64 → bool).
Variables (read1 read2 : string → option F64).
Variables (cast1 cast2 : string → option F32).
Variables (of_int1 of_int2 : Z → F32) (of_float1 of_float2 : F64 → F32).
Variables registry1 registry2 : pyval F64 → result (string → list string).

Local Abbreviation run1 :=
  (Build_Libraries F64 str1 bool1 nan1 read1 F32 cast1 of_int1 of_float1
     registry1).
Local Abbreviation run2 :=
  (Build_Libraries F64 str2 bool2 nan2 read2 F32 cast2 of_int2 of_float2
     registry2).
Local Abbreviation same_tokenizer :=
  (fixed_tokenizer registry1 registry2 cast1 cast2).

Lemma row_vectors_two_runs tokenizer1 tokenizer2 padding_value
    (timeseries : list (option string)) :
  (∀ s, Some s ∈ timeseries →
     tokenizer1 s = tokenizer2 s ∧
     ∀ token, token ∈ tokenizer1 s → cast1 token = cast2 token) →
  @float32_of_number run1 padding_value
  = @float32_of_number run2 padding_value →
  @row_vectors run1 tokenizer1 padding_value timeseries
  = @row_vectors run2 tokenizer2 padding_value timeseries.
Proof.
  intros Hsame Hpad.
  induction timeseries as [|ts rest IH]; [done|].
  cbn [row_vectors].
  assert (@row_vector run1 tokenizer1 padding_value ts
          = @row_vector run2 tokenizer2 padding_value ts) as ->.
  { unfold row_vector. destruct ts as [s|]; [|by rewrite Hpad].
    destruct (cell_truthy (Some s)); [|by rewrite Hpad].
    destruct (Hsame s) as [Htok Hcast]; [apply list_elem_of_here|].
    rewrite <- Htok. by apply astype_ext. }
  rewrite IH; [done|]. intros s Hin. apply Hsame. by right.
Qed.

(** C7. Two runs on equal inputs give equal outputs of [get_feature_meta],
    [build_matrix] and, with [matrix_profile] off,
    [add_timeseries_matrix_profile], whatever else differs between the two
    runs: the machine ([w1], [w2]: CUDA, the stumpy kernels), every
    operation on floats, the registry under other names, the tokenizer on
    other strings, the conversion of other tokens. The tokenizer is fixed:
    on the rows given, the two runs split and convert alike. *)
Theorem preprocessing_deterministic
    (w1 : @world run1) (w2 : @world run2) (column : list string)
    (preprocessing_parameters : gmap string (pyval F64)) (seq_length : Z)
    (timeseries : list (option string)) (tokenizer_name : pyval F64)
    (length_limit : Z) (padding_value : number F64) (padding : pyval F64) :
  (∀ name, preprocessing_parameters !! "tokenizer" = Some name →
     same_tokenizer name column) →
  same_tokenizer tokenizer_name (omap id timeseries) →
  @float32_of_number run1 padding_value
  = @float32_of_number run2 padding_value →
  @matrix_profile_enabled run1 preprocessing_parameters = false →
  @matrix_profile_enabled run2 preprocessing_parameters = false →
  @get_feature_meta run1 column preprocessing_parameters
  = @get_feature_meta run2 column preprocessing_parameters ∧
  @build_matrix run1 timeseries tokenizer_name length_limit padding_value
    padding
  = @build_matrix run2 timeseries tokenizer_name length_limit padding_value
      padding ∧
  @add_timeseries_matrix_profile run1 w1 column seq_length
    preprocessing_parameters
  = @add_timeseries_matrix_profile run2 w2 column seq_length
      preprocessing_parameters.
Proof.
  intros Hmeta Hmatrix Hpad Hoff1 Hoff2. split; [|split].
  - unfold get_feature_meta, getitem.
    change (@float64 run1) with F64. change (@float64 run2) with F64.
    destruct (preprocessing_parameters !! "tokenizer") as [name|] eqn:Hname;
      cbn [rbind]; [|reflexivity].
    specialize (Hmeta name eq_refl). unfold fixed_tokenizer in Hmeta.
    change (@get_from_registry run1 name) with (registry1 name).
    change (@get_from_registry run2 name) with (registry2 name).
    destruct (registry1 name) as [tokenizer1|e1],
             (registry2 name) as [tokenizer2|e2]; try done;
      cbn [rbind]; [|by rewrite Hmeta].
    rewrite (max_tokenized_length_ext tokenizer1 tokenizer2 column);
      [reflexivity|].
    intros s Hin. by destruct (Hmeta s Hin).
  - rewrite (@build_matrix_placed run1), (@build_matrix_placed run2).
    unfold fixed_tokenizer in Hmatrix.
    change (@get_from_registry run1 tokenizer_name)
      with (registry1 tokenizer_name).
    change (@get_from_registry run2 tokenizer_name)
      with (registry2 tokenizer_name).
    destruct (registry1 tokenizer_name) as [tokenizer1|e1],
             (registry2 tokenizer_name) as [tokenizer2|e2]; try done;
      cbn [rbind]; [|by rewrite Hmatrix].
    rewrite (row_vectors_two_runs tokenizer1 tokenizer2 padding_value
               timeseries); [| |exact Hpad].
    + destruct (@row_vectors run2 tokenizer2 padding_value timeseries);
        cbn [rbind]; [|done].
      destruct (length_limit <? 0)%Z; [done|]. by rewrite Hpad.
    + intros s Hin. apply Hmatrix. apply list_elem_of_omap.
      by exists (Some s).
  - rewrite (@profile_disabled run1), (@profile_disabled run2) by done.
    by rewrite (@raw_window_rows run1), (@raw_window_rows run2).
Qed.

End TwoRuns.

(** * Runs on the concrete libraries *)

Section Runs.

#[local] Existing Instance sample_libraries.

(** C4. A run in which the width of the matrix and the stored
    [max_timeseries_length] part: the column holds one value per row, the
    stored length is 1 and the window has size 2. Each window carries two
    values, the matrix is built one column wide from the length found in
    [metadata], and 2 is stored afterwards. *)
Theorem feature_data_width_mismatch :
  feature_data sample_world ["1"; "2"; "3"]
    {[ "max_timeseries_length" := PInt 1 ]}
    (<[ "window_size" := PInt 2 ]> sample_parameters) ∅
  = ([], Ok ([[0%Z]; [1%Z]; [1%Z]],
             {[ "max_timeseries_length" := PInt 2 ]},
             {[ "offset" := PInt 1 ]})).
Proof. vm_compute. reflexivity. Qed.

(** A four-row column under the 'space' tokenizer and a limit of 4. *)
Lemma build_matrix_fixed_width_witness :
  (0 < 4)%Z ∧
  ∃ matrix,
    build_matrix [Some "1 2 3"; None; Some ""; Some "4 5 6 7 8"]
      (PStr "space") 4 (NInt 0) (PStr "right") = Ok matrix ∧
    length matrix = 4%nat ∧
    ∀ row, row ∈ matrix → length row = 4%nat.
Proof.
  split; [lia|].
  destruct (build_matrix_fixed_width
              [Some "1 2 3"; None; Some ""; Some "4 5 6 7 8"]
              (PStr "space") 4 (NInt 0) (PStr "right")) as [_ Hshape]; [lia|].
  eexists. split; [by vm_compute|].
  destruct (Hshape _ eq_refl) as (Hrows & Hwidth & _).
  split; [exact Hrows|exact Hwidth].
Defined.

Lemma build_matrix_padding_side_witness :
  ∃ matrix,
    build_matrix [Some "1 2 3"; Some "4 5 6 7 8"]
      (PStr "space") 4 (NInt 0) (PStr "left") = Ok matrix ∧
    ∃ row, matrix !! 0%nat = Some row ∧ drop 1 row = [1%Z; 2%Z; 3%Z].
Proof.
  assert (build_matrix [Some "1 2 3"; Some "4 5 6 7 8"]
            (PStr "space") 4 (NInt 0) (PStr "left")
          = Ok [[0%Z; 1%Z; 2%Z; 3%Z]; [4%Z; 5%Z; 6%Z; 7%Z]]) as Hm
    by (vm_compute; reflexivity).
  eexists. split; [exact Hm|].
  destruct (build_matrix_padding_side
              [Some "1 2 3"; Some "4 5 6 7 8"]
              (PStr "space") 4 (NInt 0) (PStr "left") _ Hm)
    as (tokenizer & Hreg & Hrows).
  destruct (Hrows 0%nat (Some "1 2 3") eq_refl)
    as (vector & row & Hvector & Hrow & _ & Hside).
  exists row. split; [exact Hrow|].
  injection Hreg as <-. injection Hvector as <-. exact Hside.
Defined.

Lemma build_matrix_empty_rows_witness :
  ∃ matrix,
    build_matrix [Some ""; Some "7 8"; None]
      (PStr "space") 3 (NInt 0) (PStr "right") = Ok matrix ∧
    matrix !! 0%nat = Some [0%Z; 0%Z; 0%Z] ∧
    matrix !! 2%nat = Some [0%Z; 0%Z; 0%Z].
Proof.
  destruct (build_matrix_empty_rows [Some ""; Some "7 8"; None]
              (PStr "space") (split_blanks "") 3 (NInt 0) (PStr "right"))
    as (matrix & Hm & Hrows).
  - reflexivity.
  - lia.
  - intros s Hin Hne.
    apply list_elem_of_In in Hin.
    destruct Hin as [Heq|[Heq|[Heq|[]]]]; try discriminate.
    + injection Heq as <-. by destruct Hne.
    + injection Heq as <-. by eexists.
  - exists matrix. split; [exact Hm|]. split.
    + exact (proj2 (Hrows 0%nat (Some "") eq_refl eq_refl)).
    + exact (proj2 (Hrows 2%nat None eq_refl eq_refl)).
Defined.

(** Three rows and a window of two values, over the raw column. *)
Lemma sliding_windows_witness :
  ["1"; "2"; "3"] ≠ [] ∧ (1 ≤ 2)%Z ∧
  ∃ window_data,
    add_timeseries_matrix_profile sample_world ["1"; "2"; "3"] 2
      sample_parameters = ([], Ok window_data) ∧
    window_data !! 0%nat = Some None ∧
    ∃ values,
      length values = 2%nat ∧
      window_data !! 2%nat = Some (Some (join " " (map py_str values))).
Proof.
  split; [discriminate|]. split; [lia|].
  destruct (sliding_windows sample_world ["1"; "2"; "3"] 2 sample_parameters
              [] (map VStr ["1"; "2"; "3"]))
    as (first & window_data & _ & Hrun & Hpad & Hwindows).
  - discriminate.
  - lia.
  - left. split; [reflexivity|]. split; reflexivity.
  - exists window_data. split; [exact Hrun|]. split.
    + apply Hpad. simpl. lia.
    + destruct (Hwindows 2%nat) as (values & Hlen & _ & Hcell).
      * simpl. lia.
      * simpl. lia.
      * exists values. split; [exact Hlen|exact Hcell].
Defined.

(** C5, the claim as stated fails: a window of three values over a column
    of one row yields two entries, and [feature_data] a matrix of two rows. *)
Lemma row_count_counterexample :
  add_timeseries_matrix_profile sample_world ["1"] 3 sample_parameters
  = ([], Ok [None; None]) ∧
  length [@None string; None] ≠ length ["1"] ∧
  feature_data sample_world ["1"]
    {[ "max_timeseries_length" := PInt 1 ]}
    (<[ "window_size" := PInt 3 ]> sample_parameters) ∅
  = ([], Ok ([[0%Z]; [0%Z]],
             {[ "max_timeseries_length" := PInt 3 ]},
             {[ "offset" := PInt 2 ]})) ∧
  length [[0%Z]; [0%Z]] ≠ length ["1"].
Proof.
  split; [vm_compute; reflexivity|]. split; [discriminate|].
  split; [vm_compute; reflexivity|]. discriminate.
Qed.

Lemma row_count_preserved_witness :
  ["1"; "2"; "3"] ≠ [] ∧
  ∃ window_data,
    add_timeseries_matrix_profile sample_world ["1"; "2"; "3"] 2
      sample_parameters = ([], Ok window_data) ∧
    length window_data = 3%nat.
Proof.
  split; [discriminate|].
  destruct (row_count_preserved sample_world ["1"; "2"; "3"]
              sample_parameters) as (Hcount & Hreturns & _); [discriminate|].
  destruct (Hreturns 2%Z) as [window_data Hrun]; [reflexivity|].
  exists window_data. split; [exact Hrun|].
  apply (Hcount 2%Z [] window_data); [simpl; lia|exact Hrun].
Defined.

Lemma preprocessing_deterministic_witness :
  @get_feature_meta sample_libraries ["1 2"; "3"] sample_parameters
  = @get_feature_meta other_libraries ["1 2"; "3"] sample_parameters ∧
  @build_matrix sample_libraries [Some "1 2"; None] (PStr "space") 3
    (NInt 0) (PStr "left")
  = @build_matrix other_libraries [Some "1 2"; None] (PStr "space") 3
      (NInt 0) (PStr "left") ∧
  @add_timeseries_matrix_profile sample_libraries sample_world ["1 2"; "3"] 2
    sample_parameters
  = @add_timeseries_matrix_profile other_libraries other_world ["1 2"; "3"] 2
      sample_parameters.
Proof.
  apply (preprocessing_deterministic Z Z
           (@float64_str sample_libraries) (@float64_str other_libraries)
           (@float64_bool sample_libraries) (@float64_bool other_libraries)
           (@float64_isnan sample_libraries) (@float64_isnan other_libraries)
           (@float64_of_str sample_libraries)
           (@float64_of_str other_libraries)
           (@float32_of_str sample_libraries)
           (@float32_of_str other_libraries)
           (@float32_of_int sample_libraries)
           (@float32_of_int other_libraries)
           (@float32_of_float sample_libraries)
           (@float32_of_float other_libraries)
           (@get_from_registry sample_libraries)
           (@get_from_registry other_libraries)
           sample_world other_world).
  - intros name Hname.
    assert (name = PStr "space") as -> by (vm_compute in Hname; congruence).
    intros s Hin. apply list_elem_of_In in Hin.
    destruct Hin as [<-|[<-|[]]]; (split; [reflexivity|]);
      intros token Htoken; apply list_elem_of_In in Htoken; simpl in Htoken.
    + destruct Htoken as [<-|[<-|[]]]; reflexivity.
    + destruct Htoken as [<-|[]]; reflexivity.
  - intros s Hin. apply list_elem_of_In in Hin.
    destruct Hin as [<-|[]]. split; [reflexivity|].
    intros token Htoken. apply list_elem_of_In in Htoken. simpl in Htoken.
    destruct Htoken as [<-|[<-|[]]]; reflexivity.
  - reflexivity.
  - reflexivity.
  - reflexivity.
Defined.

(** C8, the claim as stated fails: with a negative limit the length stored
    for the empty column is the limit, not 0. *)
Lemma get_feature_meta_counterexample :
  get_feature_meta []
    (<[ "timeseries_length_limit" := PInt (-1) ]> sample_parameters)
  = Ok {[ "max_timeseries_length" := PInt (-1) ]} ∧
  ({[ "max_timeseries_length" := PInt (-1) ]} : gmap string pyobj)
    !! "max_timeseries_length" ≠ Some (PInt 0).
Proof. split; [vm_compute; reflexivity|]. discriminate. Qed.

Lemma get_feature_meta_length_witness :
  sample_parameters !! "tokenizer" = Some (PStr "space") ∧
  get_from_registry (PStr "space") = Ok (split_blanks "") ∧
  sample_parameters !! "timeseries_length_limit" = Some (PInt 256) ∧
  ∃ L,
    get_feature_meta ["1 2 3"; "4 5"] sample_parameters
    = Ok {[ "max_timeseries_length" := PInt (Z.min 256 L) ]} ∧
    (Z.min 256 L ≤ 256)%Z.
Proof.
  split; [reflexivity|]. split; [reflexivity|]. split; [reflexivity|].
  destruct (get_feature_meta_length ["1 2 3"; "4 5"] sample_parameters
              (PStr "space") (split_blanks "") 256 eq_refl eq_refl eq_refl)
    as (L & _ & _ & Hmeta & Hle & _).
  exists L. split; [exact Hmeta|exact Hle].
Defined.



End Runs.

(** * Further properties of the module *)

Section Coverage.

Context `{Libraries}.

Variable NAME : string.

(** *** Windows over the raw column *)

(** Without [matrix_profile], a non-empty column always yields its windows,
    cut from the column prefixed with copies of its first value. *)
Lemma raw_windows w first rest seq_length
    (preprocessing_parameters : gmap string pyobj) :
  matrix_profile_enabled preprocessing_parameters = false →
  add_timeseries_matrix_profile w (first :: rest) seq_length
    preprocessing_parameters
  = ([], Ok (py_repeat None (seq_length - 1)
             ++ map (fun index =>
                       Some (join " "
                               (map py_str
                                  (py_slice
                                     (map VStr
                                        (py_repeat first (seq_length - 1)
                                         ++ first :: rest))
                                     (index - (seq_length - 1))
                                     (index + 1)))))
                  (py_range (seq_length - 1)
                     (Z.of_nat (length (first :: rest)))))).
Proof.
  intros Hoff. rewrite profile_disabled by done.
  change (map VStr (first :: rest)) with (VStr first :: map VStr rest).
  rewrite window_rows_returns by apply (isnull_strings (first :: rest)).
  do 3 f_equal. apply map_ext. intros index. do 4 f_equal.
  change (VStr first :: map VStr rest) with (map VStr (first :: rest)).
  apply padded_strings.
Qed.

Lemma padded_lookup {A} (first : A) (column : list A) pad j :
  column !! 0%nat = Some first →
  (j < pad + length column)%nat →
  (replicate pad first ++ column) !! j = column !! (j - pad)%nat.
Proof.
  intros Hfirst Hj. destruct (decide (j < pad)%nat).
  - rewrite lookup_app_l by (by rewrite length_replicate).
    rewrite lookup_replicate_2 by done.
    by replace (j - pad)%nat with 0%nat by lia.
  - rewrite lookup_app_r by (rewrite length_replicate; lia).
    by rewrite length_replicate.
Qed.

(** X1. Without [matrix_profile] and for a window of size [seq_length >= 1],
    the window of row [i] is cut from rows [i - 2*(seq_length-1) ..
    i - (seq_length-1)] of the column (row 0 standing in for the rows before
    the start): its last value is the value of row [i - (seq_length-1)], so
    for a window larger than one the values of the last [seq_length-1] rows
    appear in no window. *)
Theorem window_lags w (column : list string) seq_length
    (preprocessing_parameters : gmap string pyobj) (i : nat) :
  matrix_profile_enabled preprocessing_parameters = false →
  (1 ≤ seq_length)%Z →
  (Z.to_nat (seq_length - 1) ≤ i)%nat → (i < length column)%nat →
  ∃ window_data values,
    add_timeseries_matrix_profile w column seq_length
      preprocessing_parameters = ([], Ok window_data) ∧
    window_data !! i = Some (Some (join " " values)) ∧
    length values = Z.to_nat seq_length ∧
    (∀ k : nat, (k < Z.to_nat seq_length)%nat →
       values !! k = column !! (i + k - 2 * Z.to_nat (seq_length - 1))%nat) ∧
    last values = column !! (i - Z.to_nat (seq_length - 1))%nat.
Proof.
  intros Hoff Hs Hlo Hhi.
  destruct column as [|first rest]; [simpl in Hhi; lia|].
  set (column := first :: rest) in *.
  set (pad := Z.to_nat (seq_length - 1)) in *.
  eexists _, (py_slice (py_repeat first (seq_length - 1) ++ column)
                (Z.of_nat i - (seq_length - 1)) (Z.of_nat i + 1)).
  split; [by apply raw_windows|].
  destruct (window_values (py_repeat first (seq_length - 1) ++ column)
              seq_length i) as [Hlen Hvals]; [done|done| |].
  { unfold py_repeat. rewrite length_app, length_replicate. lia. }
  assert (∀ k : nat, (k < Z.to_nat seq_length)%nat →
            py_slice (py_repeat first (seq_length - 1) ++ column)
              (Z.of_nat i - (seq_length - 1)) (Z.of_nat i + 1) !! k
            = column !! (i + k - 2 * pad)%nat) as Hcells.
  { intros k Hk. rewrite Hvals by done. unfold py_repeat. fold pad.
    rewrite padded_lookup; [f_equal; lia|done|]. lia. }
  split; [|split; [done|split; [done|]]].
  - rewrite windows_lookup_window by done.
    by rewrite py_slice_map, py_str_strings.
  - rewrite last_lookup, Hlen.
    replace (Init.Nat.pred (Z.to_nat seq_length)) with pad by lia.
    rewrite Hcells by lia. f_equal. lia.
Qed.

Lemma unit_window_run w (column : list string)
    (preprocessing_parameters : gmap string pyobj) :
  column ≠ [] →
  matrix_profile_enabled preprocessing_parameters = false →
  add_timeseries_matrix_profile w column 1 preprocessing_parameters
  = ([], Ok (map Some column)).
Proof.
  intros Hcol Hoff. destruct column as [|first rest]; [done|].
  rewrite raw_windows by done. do 2 f_equal.
  change (py_repeat None (1 - 1)) with (@nil (option string)).
  change (py_repeat first (1 - 1)) with (@nil string).
  rewrite app_nil_l.
  apply list_eq. intros i.
  rewrite !list_lookup_fmap. unfold py_range.
  destruct (decide (i < length (first :: rest))%nat) as [Hi|Hi].
  - rewrite lookup_seqZ_lt by lia. simpl.
    destruct (window_values ([] ++ first :: rest) 1 i) as [Hlen Hvals];
      [lia|simpl; lia|simpl in *; lia|].
    rewrite app_nil_l in Hlen, Hvals.
    change (VStr first :: map VStr rest) with (map VStr (first :: rest)).
    rewrite py_slice_map, py_str_strings.
    replace (1 - 1 + Z.of_nat i - (1 - 1))%Z
      with (Z.of_nat i - (1 - 1))%Z by lia.
    replace (1 - 1 + Z.of_nat i + 1)%Z with (Z.of_nat i + 1)%Z by lia.
    destruct (py_slice (first :: rest) (Z.of_nat i - (1 - 1)) (Z.of_nat i + 1))
      as [|v [|v' vs]] eqn:Hslice; try (simpl in Hlen; lia).
    specialize (Hvals 0%nat ltac:(simpl; lia)). simpl in Hvals.
    rewrite Nat.sub_0_r, Nat.add_0_r in Hvals. by rewrite <- Hvals.
  - rewrite lookup_seqZ_ge by lia. simpl.
    symmetry. apply fmap_None. apply lookup_ge_None. lia.
Qed.

(** X2. With the default window of one value and without [matrix_profile],
    the windows of a non-empty column are its own cells: the call returns
    the column unchanged. *)
Theorem unit_window_is_identity w (column : list string)
    (preprocessing_parameters : gmap string pyobj) :
  column ≠ [] →
  matrix_profile_enabled preprocessing_parameters = false →
  add_timeseries_matrix_profile w column 1 preprocessing_parameters
  = ([], Ok (map Some column)).
Proof. apply unit_window_run. Qed.

(** X3. Whenever the call returns, the list holds [seq_length - 1] leading
    [None] entries (none for [seq_length <= 1]) followed by one window per
    index of [range(seq_length - 1, len(column))]: for [seq_length >= 1]
    that is [max(len(column), seq_length - 1)] entries, and for
    [seq_length <= 0] it is [len(column) + 1 - seq_length], more than the
    column has rows. *)
Theorem window_count w (column : list string) seq_length
    (preprocessing_parameters : gmap string pyobj) trace window_data :
  add_timeseries_matrix_profile w column seq_length preprocessing_parameters
  = (trace, Ok window_data) →
  (Z.of_nat (length window_data)
   = Z.max 0 (seq_length - 1)
     + Z.max 0 (Z.of_nat (length column) - (seq_length - 1)))%Z ∧
  ((1 ≤ seq_length)%Z →
   length window_data
   = Nat.max (length column) (Z.to_nat (seq_length - 1))) ∧
  ((seq_length ≤ 0)%Z →
   Z.of_nat (length window_data)
   = (Z.of_nat (length column) + 1 - seq_length)%Z).
Proof.
  intros (first & rest & _ & ->)%profile_run_inv.
  unfold py_repeat, py_range.
  rewrite length_app, length_replicate, length_map, length_seqZ.
  repeat split; lia.
Qed.

(** X4. With [matrix_profile] on, a NaN anywhere in the profile stumpy
    returns makes the call raise the "contains NaN values" exception: no
    window is produced. *)
Theorem nan_profile_raises w (column : list string) seq_length
    (preprocessing_parameters : gmap string pyobj) trace stumpy_mp r :
  matrix_profile_enabled preprocessing_parameters = true →
  build_stumpy_mp w column seq_length = (trace, Ok stumpy_mp) →
  r ∈ stumpy_mp → float64_isnan (mp_value r) = true →
  add_timeseries_matrix_profile w column seq_length preprocessing_parameters
  = (trace, Raise (Exception nan_message)).
Proof.
  intros Hon Hbuild Hr Hnan.
  rewrite (profile_run w column seq_length preprocessing_parameters trace
             (map (fun r => VFloat (mp_value r)) stumpy_mp))
    by (right; eauto).
  f_equal.
  assert (existsb isnull (map (fun r => VFloat (mp_value r)) stumpy_mp)
          = true) as Hnull.
  { apply existsb_exists. exists (VFloat (mp_value r)). split; [|done].
    apply in_map_iff. exists r. split; [done|]. by apply list_elem_of_In. }
  destruct stumpy_mp as [|r0 rows]; [by apply elem_of_nil in Hr|].
  change (map (fun r => VFloat (mp_value r)) (r0 :: rows))
    with (VFloat (mp_value r0) :: map (fun r => VFloat (mp_value r)) rows)
    in *.
  rewrite window_rows_cons. cbv zeta.
  rewrite existsb_app, Hnull. by rewrite orb_true_r.
Qed.

(** X5. A failure while the windows are computed is the failure of
    [feature_data]: an exception raised by [build_stumpy_mp] leaves
    [add_timeseries_matrix_profile] unchanged, and any exception of that
    call leaves [feature_data] unchanged, with the same calls recorded. *)
Theorem window_failure_propagates w (column : list string) seq_length
    (metadata preprocessing_parameters global_preprocessing_parameters
       : gmap string pyobj) trace e :
  as_int (default (PInt 1) (preprocessing_parameters !! "window_size"))
  = Ok seq_length →
  (matrix_profile_enabled preprocessing_parameters = true ∧
   build_stumpy_mp w column seq_length = (trace, Raise e)) ∨
  add_timeseries_matrix_profile w column seq_length preprocessing_parameters
  = (trace, Raise e) →
  add_timeseries_matrix_profile w column seq_length preprocessing_parameters
  = (trace, Raise e) ∧
  feature_data w column metadata preprocessing_parameters
    global_preprocessing_parameters
  = (trace, Raise e).
Proof.
  intros Hs Hfail.
  assert (add_timeseries_matrix_profile w column seq_length
            preprocessing_parameters = (trace, Raise e)) as Hrun.
  { destruct Hfail as [[Hon Hbuild]|?]; [|done].
    rewrite profile_enabled by done. rewrite Hbuild. simpl.
    unfold build_stumpy_mp in Hbuild. by injection Hbuild as <- _. }
  split; [done|].
  unfold feature_data. rewrite Hs. cbn [lift tbind]. by rewrite Hrun.
Qed.

(** *** Conversions *)

Lemma astype_Ok {X Y} (conv : X → option Y) xs ys :
  astype conv xs = Ok ys ↔ Forall2 (fun x y => conv x = Some y) xs ys.
Proof.
  revert ys. induction xs as [|x xs IH]; intros ys; simpl.
  - split.
    + intros [= <-]. constructor.
    + by intros ->%Forall2_nil_inv_l.
  - destruct (conv x) as [y|] eqn:Hx.
    + rewrite rbind_Ok. split.
      * intros (ys' & Hys & [= <-]). constructor; [done|by apply IH].
      * intros (y' & ys' & Hy & Hys & ->)%Forall2_cons_inv_l.
        exists ys'. split; [by apply IH|]. congruence.
    + split; [done|].
      intros (y' & ys' & Hy & _)%Forall2_cons_inv_l. congruence.
Qed.

Lemma astype_outcome {X Y} (conv : X → option Y) xs :
  (∃ ys, astype conv xs = Ok ys) ∨ astype conv xs = Raise ValueError.
Proof.
  induction xs as [|x xs IH]; simpl; [by left; eexists|].
  destruct (conv x); [|by right].
  destruct IH as [[ys ->]| ->]; [left; by eexists|by right].
Qed.

Lemma astype_Raise {X Y} (conv : X → option Y) xs :
  astype conv xs = Raise ValueError ↔ ∃ x, x ∈ xs ∧ conv x = None.
Proof.
  induction xs as [|x xs IH]; simpl.
  - split; [done|]. by intros (x & ?%elem_of_nil & _).
  - destruct (conv x) as [y|] eqn:Hx.
    + destruct (astype_outcome conv xs) as [[ys Hys]|Hys];
        rewrite Hys in *; simpl.
      * split; [done|].
        intros (x' & [->|Hin]%elem_of_cons & Hnone); [congruence|].
        assert (@Ok (list Y) ys = Raise ValueError) as Habs
          by (apply IH; eauto).
        discriminate.
      * split; [|done].
        intros _. destruct (proj1 IH eq_refl) as (x' & Hin & Hnone).
        exists x'. split; [by right|done].
    + split; [|done]. intros _. exists x. split; [by left|done].
Qed.

(** X6. [build_stumpy_mp] and the column it is given: one string that is
    not a float makes it raise "Can't convert column to float", whatever
    the machine; otherwise the kernel chosen by the CUDA state receives the
    floats of the column, the window size and, on the GPU, the device
    list, and its answer or exception is passed on unchanged. *)
Theorem build_stumpy_mp_outcomes w (column : list string) seq_length :
  ((∃ x, x ∈ column ∧ float64_of_str x = None) →
   build_stumpy_mp w column seq_length
   = ([Call_build_stumpy_mp column seq_length],
      Raise (Exception "Can't convert column to float"))) ∧
  ((∀ x, x ∈ column → is_Some (float64_of_str x)) →
   ∃ old_data,
     Forall2 (fun x y => float64_of_str x = Some y) column old_data ∧
     build_stumpy_mp w column seq_length
     = ([Call_build_stumpy_mp column seq_length],
        if cuda_is_available w
        then gpu_stump w old_data seq_length (cuda_device_ids w)
        else stump w old_data seq_length)).
Proof.
  unfold build_stumpy_mp. split.
  - intros Hbad. apply astype_Raise in Hbad. by rewrite Hbad.
  - intros Hall.
    destruct (astype_outcome float64_of_str column) as [[ys Hys]|Hbad].
    + exists ys. split; [by apply astype_Ok|]. by rewrite Hys.
    + apply astype_Raise in Hbad as (x & Hin & Hnone).
      destruct (Hall x Hin) as [y Hy]. congruence.
Qed.

(** *** [get_feature_meta] on any column *)

Lemma max_length_from (tokenizer : string → list string) column :
  ∀ start, (0 ≤ start)%Z →
    fold_left
      (fun max_length timeseries =>
         Z.max max_length (Z.of_nat (length (tokenizer timeseries))))
      column start
    = Z.max start (max_tokenized_length tokenizer column).
Proof.
  unfold max_tokenized_length.
  induction column as [|x xs IH]; intros start Hstart; simpl; [lia|].
  rewrite (IH (Z.max start _)) by lia.
  rewrite (IH (Z.max 0 _)) by lia. lia.
Qed.

Lemma max_tokenized_length_app tokenizer column1 column2 :
  max_tokenized_length tokenizer (column1 ++ column2)
  = Z.max (max_tokenized_length tokenizer column1)
      (max_tokenized_length tokenizer column2).
Proof.
  unfold max_tokenized_length at 1. rewrite fold_left_app.
  fold (max_tokenized_length tokenizer column1).
  apply max_length_from.
  destruct (max_length_loop tokenizer column1 0%Z) as [Hge _]. exact Hge.
Qed.

Lemma get_feature_meta_Ok column
    (preprocessing_parameters : gmap string pyobj) meta :
  get_feature_meta column preprocessing_parameters = Ok meta ↔
  ∃ name tokenizer limit_v limit,
    preprocessing_parameters !! "tokenizer" = Some name ∧
    get_from_registry name = Ok tokenizer ∧
    preprocessing_parameters !! "timeseries_length_limit" = Some limit_v ∧
    as_int limit_v = Ok limit ∧
    meta = {[ "max_timeseries_length"
              := PInt (Z.min limit (max_tokenized_length tokenizer column)) ]}.
Proof.
  unfold get_feature_meta. split.
  - intros (name & Hname%getitem_Ok & Hrun)%rbind_Ok.
    apply rbind_Ok in Hrun as (tokenizer & Hreg & Hrun).
    apply rbind_Ok in Hrun as (limit_v & Hlimit_v%getitem_Ok & Hrun).
    apply rbind_Ok in Hrun as (limit & Hlimit & [= <-]).
    by exists name, tokenizer, limit_v, limit.
  - intros (name & tokenizer & limit_v & limit & Hname & Hreg & Hlimit_v
            & Hlimit & ->).
    unfold getitem. rewrite Hname. simpl. rewrite Hreg. simpl.
    rewrite Hlimit_v. simpl. by rewrite Hlimit.
Qed.

(** X7. [get_feature_meta] on two columns and on their concatenation, with
    the same parameters: the length stored for the concatenation is the
    larger of the two lengths, so the metadata of a dataset can be computed
    from the metadata of its parts. *)
Theorem get_feature_meta_append (column1 column2 : list string)
    (preprocessing_parameters : gmap string pyobj) meta1 meta2 :
  get_feature_meta column1 preprocessing_parameters = Ok meta1 →
  get_feature_meta column2 preprocessing_parameters = Ok meta2 →
  ∃ length1 length2,
    meta1 = {[ "max_timeseries_length" := PInt length1 ]} ∧
    meta2 = {[ "max_timeseries_length" := PInt length2 ]} ∧
    get_feature_meta (column1 ++ column2) preprocessing_parameters
    = Ok {[ "max_timeseries_length" := PInt (Z.max length1 length2) ]}.
Proof.
  intros (name & tokenizer & limit_v & limit & Hname & Hreg & Hlimit_v
          & Hlimit & ->)%get_feature_meta_Ok
         (name' & tokenizer' & limit_v' & limit' & Hname' & Hreg' & Hlimit_v'
          & Hlimit' & ->)%get_feature_meta_Ok.
  assert (name' = name) as -> by congruence.
  assert (tokenizer' = tokenizer) as -> by congruence.
  assert (limit_v' = limit_v) as -> by congruence.
  assert (limit' = limit) as -> by congruence.
  eexists _, _. split; [done|]. split; [done|].
  apply get_feature_meta_Ok.
  exists name, tokenizer, limit_v, limit. repeat (split; [done|]).
  rewrite max_tokenized_length_app. do 2 f_equal. lia.
Qed.

(** X8. Whether [get_feature_meta] fails is decided by the parameters, not
    by the column: without the ['tokenizer'] key it raises
    [KeyError('tokenizer')] before the limit is looked at, an error of the
    tokenizer registry is passed on, a registered tokenizer without the
    ['timeseries_length_limit'] key gives [KeyError] of that key, and with
    a registered tokenizer and an [int] limit it returns, on every column,
    empty or not, the smaller of the limit and the longest tokenized row. *)
Theorem get_feature_meta_domain (column : list string)
    (preprocessing_parameters : gmap string pyobj) :
  (preprocessing_parameters !! "tokenizer" = None →
   get_feature_meta column preprocessing_parameters
   = Raise (KeyError "tokenizer")) ∧
  (∀ name e,
     preprocessing_parameters !! "tokenizer" = Some name →
     get_from_registry name = Raise e →
     get_feature_meta column preprocessing_parameters = Raise e) ∧
  (∀ name tokenizer,
     preprocessing_parameters !! "tokenizer" = Some name →
     get_from_registry name = Ok tokenizer →
     preprocessing_parameters !! "timeseries_length_limit" = None →
     get_feature_meta column preprocessing_parameters
     = Raise (KeyError "timeseries_length_limit")) ∧
  (∀ name tokenizer limit,
     preprocessing_parameters !! "tokenizer" = Some name →
     get_from_registry name = Ok tokenizer →
     preprocessing_parameters !! "timeseries_length_limit"
     = Some (PInt limit) →
     get_feature_meta column preprocessing_parameters
     = Ok {[ "max_timeseries_length"
             := PInt (Z.min limit
                        (max_tokenized_length tokenizer column)) ]}).
Proof.
  repeat split.
  - intros Hnone. unfold get_feature_meta, getitem. by rewrite Hnone.
  - intros name e Hname Hreg.
    unfold get_feature_meta, getitem. rewrite Hname. simpl.
    by rewrite Hreg.
  - intros name tokenizer Hname Hreg Hnone.
    unfold get_feature_meta, getitem. rewrite Hname. simpl.
    rewrite Hreg. simpl. by rewrite Hnone.
  - intros name tokenizer limit Hname Hreg Hlimit.
    unfold get_feature_meta, getitem. rewrite Hname. simpl.
    rewrite Hreg. simpl. by rewrite Hlimit.
Qed.

(** *** Failures and fits of [build_matrix] *)


Lemma row_vectors_Forall2 tokenizer padding_value timeseries vs :
  row_vectors tokenizer padding_value timeseries = Ok vs ↔
  Forall2 (fun ts v => row_vector tokenizer padding_value ts = Ok v)
    timeseries vs.
Proof.
  revert vs. induction timeseries as [|ts rest IH]; intros vs; simpl.
  - split.
    + intros [= <-]. constructor.
    + by intros ->%Forall2_nil_inv_l.
  - rewrite rbind_Ok. split.
    + intros (v & Hv & (vs' & Hvs & [= <-])%rbind_Ok).
      constructor; [done|by apply IH].
    + intros (v & vs' & Hv & Hvs & ->)%Forall2_cons_inv_l.
      exists v. split; [done|]. apply rbind_Ok. exists vs'.
      split; [by apply IH|done].
Qed.



Lemma placed_row_long max_length padding fill vector :
  (max_length ≤ length vector)%nat →
  placed_row max_length padding fill vector = take max_length vector.
Proof.
  intros Hlong. unfold placed_row.
  replace (Nat.min (length vector) max_length) with max_length by lia.
  rewrite Nat.sub_diag. simpl.
  destruct (eq_str padding "right"); [by rewrite app_nil_r|done].
Qed.

(** X10. When every vector has at least [length_limit] cells the padding
    side plays no part: each row of the matrix is the first [length_limit]
    cells of its vector, and any other [padding] gives the same matrix. *)
Theorem long_rows_ignore_padding timeseries tokenizer_name tokenizer
    length_limit padding_value padding padding' matrix :
  get_from_registry tokenizer_name = Ok tokenizer →
  (∀ ts v, ts ∈ timeseries →
     row_vector tokenizer padding_value ts = Ok v →
     (Z.to_nat length_limit ≤ length v)%nat) →
  build_matrix timeseries tokenizer_name length_limit padding_value padding
  = Ok matrix →
  build_matrix timeseries tokenizer_name length_limit padding_value padding'
  = Ok matrix ∧
  ∀ i ts v, timeseries !! i = Some ts →
    row_vector tokenizer padding_value ts = Ok v →
    matrix !! i = Some (take (Z.to_nat length_limit) v).
Proof.
  intros Hreg Hlong
    (tokenizer' & vs & Hreg' & Hvs & Hlimit & ->)%build_matrix_inv.
  assert (tokenizer' = tokenizer) as -> by congruence.
  assert (∀ p, map (placed_row (Z.to_nat length_limit) p
                      (float32_of_number padding_value)) vs
               = map (take (Z.to_nat length_limit)) vs) as Htake.
  { intros p. apply map_ext_in. intros v Hin%list_elem_of_In.
    apply placed_row_long.
    apply row_vectors_Forall2 in Hvs.
    apply list_elem_of_lookup in Hin as [i Hi].
    destruct (Forall2_lookup_r _ _ _ _ _ Hvs Hi) as (ts & Hts & Hv).
    eapply Hlong; [|done]. by eapply list_elem_of_lookup_2. }
  split.
  - rewrite build_matrix_placed, Hreg. simpl. rewrite Hvs. simpl.
    rewrite (proj2 (Z.ltb_ge _ _) Hlimit). by rewrite !Htake.
  - intros i ts v Hts Hv. rewrite Htake.
    apply row_vectors_lookup in Hvs as [_ Hrows].
    destruct (Hrows _ _ Hts) as (v' & Hv' & Hrow).
    rewrite list_lookup_fmap, Hv'. simpl. congruence.
Qed.

(** X11. [get_feature_meta] followed by [build_matrix]: when the limit of
    the parameters is at least the tokenized length of every row, the
    stored length is wide enough for every row, and a matrix built with it
    holds the whole vector of each non-empty row, nothing cut: at the start
    of the row for [padding='right'], at its end otherwise. *)
Theorem metadata_width_fits (column : list string)
    (preprocessing_parameters : gmap string pyobj) meta name tokenizer limit
    padding_value padding matrix :
  preprocessing_parameters !! "tokenizer" = Some name →
  get_from_registry name = Ok tokenizer →
  preprocessing_parameters !! "timeseries_length_limit" = Some (PInt limit) →
  (∀ s, s ∈ column → (Z.of_nat (length (tokenizer s)) ≤ limit)%Z) →
  get_feature_meta column preprocessing_parameters = Ok meta →
  ∃ width,
    meta !! "max_timeseries_length" = Some (PInt width) ∧
    (build_matrix (map Some column) name width padding_value padding
     = Ok matrix →
     ∀ i s, column !! i = Some s → s ≠ "" →
       ∃ v row,
         row_vector tokenizer padding_value (Some s) = Ok v ∧
         length v = length (tokenizer s) ∧
         matrix !! i = Some row ∧
         if eq_str padding "right"
         then take (length v) row = v
         else drop (Z.to_nat width - length v) row = v).
Proof.
  intros Hname Hreg Hlimit Hfits
    (name' & tokenizer' & limit_v & limit' & Hname' & Hreg' & Hlimit_v
     & Hlimit' & ->)%get_feature_meta_Ok.
  assert (name' = name) as -> by congruence.
  assert (tokenizer' = tokenizer) as -> by congruence.
  assert (limit_v = PInt limit) as -> by congruence.
  injection Hlimit' as <-.
  eexists. split; [by rewrite lookup_singleton_eq|].
  intros Hm i s Hs Hne.
  destruct (max_length_loop tokenizer column 0%Z) as (_ & Hall & _).
  fold (max_tokenized_length tokenizer column) in Hall.
  assert (s ∈ column) as Hin by (by eapply list_elem_of_lookup_2).
  pose proof (Hall s Hin) as Hle. pose proof (Hfits s Hin) as Hle'.
  destruct (build_matrix_rows _ _ _ _ _ _ Hm)
    as (tokenizer' & Hreg'' & _ & _ & Hrows).
  assert (tokenizer' = tokenizer) as -> by congruence.
  destruct (Hrows i (Some s)) as (v & Hv & Hrow).
  { by rewrite list_lookup_fmap, Hs. }
  exists v. eexists. split; [done|].
  assert (length v = length (tokenizer s)) as Hlen.
  { unfold row_vector in Hv. simpl in Hv.
    rewrite (proj2 (String.eqb_neq s "") Hne) in Hv. simpl in Hv.
    apply astype_Ok in Hv. symmetry. by eapply Forall2_length. }
  split; [done|]. split; [exact Hrow|].
  set (width := Z.to_nat (Z.min limit (max_tokenized_length tokenizer column))).
  assert (Nat.min (length v) width = length v) as Hmin
    by (unfold width; lia).
  destruct (eq_str padding "right") eqn:Hside.
  - pose proof (placed_row_right_prefix width padding
                  (float32_of_number padding_value) v Hside) as Hprefix.
    rewrite Hmin in Hprefix. rewrite Hprefix. by apply take_ge.
  - pose proof (placed_row_left_suffix width padding
                  (float32_of_number padding_value) v Hside) as Hsuffix.
    rewrite Hmin in Hsuffix. rewrite Hsuffix. by apply take_ge.
Qed.

(** *** [feature_data] and its dictionaries *)

Lemma feature_data_Ok w column
    (metadata preprocessing_parameters global_preprocessing_parameters
       : gmap string pyobj)
    trace seq_length window_data stored max_timeseries_length tokenizer_name
    padding_value_v padding_value padding timeseries_data :
  as_int (default (PInt 1) (preprocessing_parameters !! "window_size"))
  = Ok seq_length →
  add_timeseries_matrix_profile w column seq_length preprocessing_parameters
  = (trace, Ok window_data) →
  metadata !! "max_timeseries_length" = Some stored →
  as_int stored = Ok max_timeseries_length →
  preprocessing_parameters !! "tokenizer" = Some tokenizer_name →
  preprocessing_parameters !! "padding_value" = Some padding_value_v →
  as_number padding_value_v = Ok padding_value →
  preprocessing_parameters !! "padding" = Some padding →
  build_matrix window_data tokenizer_name max_timeseries_length
    padding_value padding = Ok timeseries_data →
  feature_data w column metadata preprocessing_parameters
    global_preprocessing_parameters
  = (trace,
     Ok (timeseries_data,
         <[ "max_timeseries_length"
            := if (max_timeseries_length <? seq_length)%Z
               then default (PInt 1)
                      (preprocessing_parameters !! "window_size")
               else stored ]> metadata,
         <[ "offset" := PInt (seq_length - 1) ]>
           global_preprocessing_parameters)).
Proof.
  intros Hs Hrun Hstored Hlimit Hname Hpv_v Hpv Hpadding Hm.
  unfold feature_data. rewrite Hs. cbn [lift tbind]. rewrite Hrun.
  cbn [lift tbind]. rewrite app_nil_r. f_equal.
  unfold getitem. rewrite Hstored, Hname, Hpv_v, Hpadding. simpl.
  rewrite Hlimit. simpl. rewrite Hpv. simpl. by rewrite Hm.
Qed.

(** X12. A returning [feature_data] changes its dictionaries in two places
    only: ['max_timeseries_length'] of [metadata], and ['offset'] of the
    global parameters, which becomes [window_size - 1]; every other key of
    both keeps its value. *)
Theorem feature_data_frame w column
    (metadata preprocessing_parameters global_preprocessing_parameters
       : gmap string pyobj)
    trace timeseries_data metadata' global' :
  feature_data w column metadata preprocessing_parameters
    global_preprocessing_parameters
  = (trace, Ok (timeseries_data, metadata', global')) →
  (∀ k, k ≠ "max_timeseries_length" → metadata' !! k = metadata !! k) ∧
  (∀ k, k ≠ "offset" →
     global' !! k = global_preprocessing_parameters !! k) ∧
  ∃ seq_length,
    as_int (default (PInt 1) (preprocessing_parameters !! "window_size"))
    = Ok seq_length ∧
    global' !! "offset" = Some (PInt (seq_length - 1)).
Proof.
  intros (seq_length & window_data & stored & limit & name & pv_v & pv
          & padding & Hs & _ & _ & _ & _ & _ & _ & _ & _ & -> & ->)
         %feature_data_inv.
  split; [|split].
  - intros k Hk. by rewrite lookup_insert_ne.
  - intros k Hk. by rewrite lookup_insert_ne.
  - exists seq_length. split; [done|]. by rewrite lookup_insert_eq.
Qed.

(** X13. The default of [metadata.get('max_timeseries_length', 1)] never
    yields a matrix: with the key missing, [feature_data] raises on every
    input, since the width is read with [metadata['max_timeseries_length']]
    again. *)
Theorem feature_data_needs_stored_length w column
    (metadata preprocessing_parameters global_preprocessing_parameters
       : gmap string pyobj) :
  metadata !! "max_timeseries_length" = None →
  ∃ trace e,
    feature_data w column metadata preprocessing_parameters
      global_preprocessing_parameters
    = (trace, Raise e).
Proof.
  intros Hnone.
  destruct (feature_data w column metadata preprocessing_parameters
              global_preprocessing_parameters)
    as [trace [[[m md'] g']|e]] eqn:Hrun; [|by eexists _, _].
  apply feature_data_inv in Hrun
    as (? & ? & stored & ? & ? & ? & ? & ? & _ & _ & Hstored & _).
  congruence.
Qed.

Lemma feature_data_default_window_run w (column : list string)
    (metadata preprocessing_parameters global_preprocessing_parameters
       : gmap string pyobj)
    stored max_timeseries_length tokenizer_name padding_value_v padding_value
    padding :
  column ≠ [] →
  preprocessing_parameters !! "window_size" = None →
  matrix_profile_enabled preprocessing_parameters = false →
  metadata !! "max_timeseries_length" = Some stored →
  as_int stored = Ok max_timeseries_length →
  preprocessing_parameters !! "tokenizer" = Some tokenizer_name →
  preprocessing_parameters !! "padding_value" = Some padding_value_v →
  as_number padding_value_v = Ok padding_value →
  preprocessing_parameters !! "padding" = Some padding →
  feature_data w column metadata preprocessing_parameters
    global_preprocessing_parameters
  = ([],
     match build_matrix (map Some column) tokenizer_name
             max_timeseries_length padding_value padding with
     | Ok timeseries_data =>
         Ok (timeseries_data,
             <[ "max_timeseries_length"
                := if (max_timeseries_length <? 1)%Z then PInt 1
                   else stored ]> metadata,
             <[ "offset" := PInt 0 ]> global_preprocessing_parameters)
     | Raise e => Raise e
     end).
Proof.
  intros Hcol Hwindow Hoff Hstored Hlimit Hname Hpv_v Hpv Hpadding.
  pose proof (unit_window_run w column preprocessing_parameters
                Hcol Hoff) as Hrun.
  unfold feature_data. rewrite Hwindow. cbn [default as_int lift tbind].
  rewrite Hrun. cbn [lift tbind app]. f_equal.
  unfold getitem. rewrite Hstored, Hname, Hpv_v, Hpadding. simpl.
  rewrite Hlimit. simpl. rewrite Hpv. simpl.
  by destruct (build_matrix (map Some column) tokenizer_name
                 max_timeseries_length padding_value padding).
Qed.

(** X14. With no ['window_size'] and no [matrix_profile], [feature_data] on
    a non-empty column is [build_matrix] on the column itself, with the
    stored length as its width: it returns the matrix or raises the
    exception of that call; it stores an offset of 0 and keeps the stored
    length unless that is below 1. *)
Theorem feature_data_default_window w (column : list string)
    (metadata preprocessing_parameters global_preprocessing_parameters
       : gmap string pyobj)
    stored max_timeseries_length tokenizer_name padding_value_v padding_value
    padding :
  column ≠ [] →
  preprocessing_parameters !! "window_size" = None →
  matrix_profile_enabled preprocessing_parameters = false →
  metadata !! "max_timeseries_length" = Some stored →
  as_int stored = Ok max_timeseries_length →
  preprocessing_parameters !! "tokenizer" = Some tokenizer_name →
  preprocessing_parameters !! "padding_value" = Some padding_value_v →
  as_number padding_value_v = Ok padding_value →
  preprocessing_parameters !! "padding" = Some padding →
  feature_data w column metadata preprocessing_parameters
    global_preprocessing_parameters
  = ([],
     match build_matrix (map Some column) tokenizer_name
             max_timeseries_length padding_value padding with
     | Ok timeseries_data =>
         Ok (timeseries_data,
             <[ "max_timeseries_length"
                := if (max_timeseries_length <? 1)%Z then PInt 1
                   else stored ]> metadata,
             <[ "offset" := PInt 0 ]> global_preprocessing_parameters)
     | Raise e => Raise e
     end).
Proof. apply feature_data_default_window_run. Qed.

(** *** The encoder configuration *)

Lemma update_config_with_metadata_Ok
    (input_feature feature_metadata : gmap string pyobj) v :
  feature_metadata !! "max_timeseries_length" = Some v →
  update_config_with_metadata input_feature feature_metadata
  = Ok (<[ "should_embed" := PBool false ]>
          (<[ "embedding_size" := PInt 1 ]>
             (<[ "max_sequence_length" := v ]> input_feature))).
Proof.
  intros Hv. unfold update_config_with_metadata, getitem. by rewrite Hv.
Qed.

Lemma max_sequence_length_written (input_feature : gmap string pyobj) v :
  <[ "should_embed" := PBool false ]>
    (<[ "embedding_size" := PInt 1 ]>
       (<[ "max_sequence_length" := v ]> input_feature))
  !! "max_sequence_length" = Some v.
Proof.
  rewrite lookup_insert_ne by done. rewrite lookup_insert_ne by done.
  by rewrite lookup_insert_eq.
Qed.

(** X15. [feature_data] followed by [update_config_with_metadata]: the
    encoder is configured with [max(stored length, window_size)] as its
    ['max_sequence_length'] while every row of the matrix has the stored
    length as its width; the two agree when the window does not exceed the
    stored length, and the configured length is strictly larger otherwise. *)
Theorem encoder_length_and_matrix_width w column
    (metadata preprocessing_parameters global_preprocessing_parameters
       input_feature : gmap string pyobj)
    trace timeseries_data metadata' global' :
  feature_data w column metadata preprocessing_parameters
    global_preprocessing_parameters
  = (trace, Ok (timeseries_data, metadata', global')) →
  ∃ stored window_size input_feature' configured,
    (∃ v, metadata !! "max_timeseries_length" = Some v ∧
          as_int v = Ok stored) ∧
    as_int (default (PInt 1) (preprocessing_parameters !! "window_size"))
    = Ok window_size ∧
    (∀ row, row ∈ timeseries_data → length row = Z.to_nat stored) ∧
    update_config_with_metadata input_feature metadata' = Ok input_feature' ∧
    input_feature' !! "max_sequence_length" = Some configured ∧
    as_int configured = Ok (Z.max stored window_size) ∧
    ((window_size ≤ stored)%Z → as_int configured = Ok stored) ∧
    ((stored < window_size)%Z → as_int configured = Ok window_size).
Proof.
  intros (window_size & stored_v & stored & Hs & Hstored & Hlimit & Hwidth
          & configured & Hconfigured & Hint)%feature_data_width.
  exists stored, window_size. eexists. exists configured.
  split; [by exists stored_v|]. split; [done|]. split; [done|].
  split; [by apply update_config_with_metadata_Ok|].
  split; [apply max_sequence_length_written|]. split; [done|].
  split; intros Hcmp; rewrite Hint; f_equal; lia.
Qed.

(** X16. The whole preprocessing of one feature with the default window:
    [get_feature_meta], then [feature_data] on the same column with the
    metadata obtained, then [update_config_with_metadata]. For a non-empty
    column whose non-empty rows are numeric and a stored length of at least
    1, the matrix has one row per row of the column, every row has the
    stored length as its width, and that same length is configured as
    ['max_sequence_length']. *)
Theorem preprocessing_pipeline w (column : list string)
    (preprocessing_parameters global_preprocessing_parameters input_feature
       : gmap string pyobj)
    meta width tokenizer_name tokenizer padding_value_v padding_value padding :
  column ≠ [] →
  preprocessing_parameters !! "window_size" = None →
  matrix_profile_enabled preprocessing_parameters = false →
  preprocessing_parameters !! "tokenizer" = Some tokenizer_name →
  get_from_registry tokenizer_name = Ok tokenizer →
  preprocessing_parameters !! "padding_value" = Some padding_value_v →
  as_number padding_value_v = Ok padding_value →
  preprocessing_parameters !! "padding" = Some padding →
  (∀ s, s ∈ column → s ≠ "" →
     ∃ v, astype float32_of_str (tokenizer s) = Ok v) →
  get_feature_meta column preprocessing_parameters = Ok meta →
  meta !! "max_timeseries_length" = Some (PInt width) →
  (1 ≤ width)%Z →
  ∃ timeseries_data metadata' global' input_feature',
    feature_data w column meta preprocessing_parameters
      global_preprocessing_parameters
    = ([], Ok (timeseries_data, metadata', global')) ∧
    length timeseries_data = length column ∧
    (∀ row, row ∈ timeseries_data → length row = Z.to_nat width) ∧
    update_config_with_metadata input_feature metadata' = Ok input_feature' ∧
    input_feature' !! "max_sequence_length" = Some (PInt width).
Proof.
  intros Hcol Hwindow Hoff Hname Hreg Hpv_v Hpv Hpadding Hnumeric Hmeta
    Hwidth Hpos.
  destruct (build_matrix_returns (map Some column) tokenizer_name tokenizer
              width padding_value padding) as (vs & Hvs & Hm);
    [done| |lia|].
  { intros ts (s & -> & Hin)%list_elem_of_fmap.
    destruct (decide (s = "")) as [->|Hne]; [by eexists|].
    unfold row_vector. simpl.
    rewrite (proj2 (String.eqb_neq s "") Hne). simpl. by apply Hnumeric. }
  pose proof (feature_data_default_window_run w column meta
                preprocessing_parameters global_preprocessing_parameters
                (PInt width) width tokenizer_name padding_value_v
                padding_value padding Hcol Hwindow Hoff Hwidth eq_refl Hname
                Hpv_v Hpv Hpadding) as Hrun.
  rewrite Hm in Hrun.
  rewrite (proj2 (Z.ltb_ge width 1)) in Hrun by lia.
  eexists _, _, _, _. split; [exact Hrun|].
  apply row_vectors_lookup in Hvs as [Hlen _].
  split; [by rewrite length_map, Hlen, length_map|]. split.
  - intros row (v & -> & _)%list_elem_of_fmap. apply placed_row_length.
  - split.
    + apply update_config_with_metadata_Ok. by rewrite lookup_insert_eq.
    + apply max_sequence_length_written.
Qed.

(** *** [add_feature_data] *)

(** X17. A returning [add_feature_data] has run [feature_data] on the
    column named by [feature[NAME]], cast to strings, against the metadata
    stored under that name; the matrix is stored in [dataset] and the
    updated metadata in [metadata] under the same name, and every other
    entry of both dictionaries keeps its value. *)
Theorem add_feature_data_stores w (feature : gmap string pyobj)
    (dataset_df : gmap string (list pyobj))
    (dataset : gmap string (list (list float32)))
    (metadata : gmap string (gmap string pyobj))
    (preprocessing_parameters global_preprocessing_parameters
       : gmap string pyobj)
    trace dataset' metadata' global' :
  add_feature_data NAME w feature dataset_df dataset metadata
    preprocessing_parameters global_preprocessing_parameters
  = (trace, Ok (dataset', metadata', global')) →
  ∃ name column feature_metadata timeseries_data feature_metadata',
    feature !! NAME = Some (PStr name) ∧
    dataset_df !! name = Some column ∧
    metadata !! name = Some feature_metadata ∧
    feature_data w (map py_obj_str column) feature_metadata
      preprocessing_parameters global_preprocessing_parameters
    = (trace, Ok (timeseries_data, feature_metadata', global')) ∧
    dataset' !! name = Some timeseries_data ∧
    metadata' !! name = Some feature_metadata' ∧
    ∀ other, other ≠ name →
      dataset' !! other = dataset !! other ∧
      metadata' !! other = metadata !! other.
Proof.
  unfold add_feature_data, getitem, subscript.
  destruct (feature !! NAME) as [[| | | |name]|] eqn:Hname;
    cbn [rbind as_str lift tbind]; try by intros [=].
  destruct (dataset_df !! name) as [column|] eqn:Hcolumn;
    cbn [lift tbind]; [|by intros [=]].
  destruct (metadata !! name) as [feature_metadata|] eqn:Hmeta;
    cbn [lift tbind]; [|by intros [=]].
  destruct (feature_data w (map py_obj_str column) feature_metadata
              preprocessing_parameters global_preprocessing_parameters)
    as [tr [[[m fm'] g']|e]] eqn:Hrun; cbn [tret tbind app];
    [|by intros [=]].
  rewrite app_nil_r. intros [= <- <- <- <-].
  exists name, column, feature_metadata, m, fm'.
  repeat (split; [done|]).
  split; [by rewrite lookup_insert_eq|].
  split; [by rewrite lookup_insert_eq|].
  intros other Hother. by rewrite !lookup_insert_ne.
Qed.

(** X18. [add_feature_data] raises [KeyError] for a feature without
    [NAME], for a name that is no column of the data frame, and for a name
    without metadata, in this order and before any profile is computed;
    and an exception of [feature_data] is its own. *)
Theorem add_feature_data_failures w (feature : gmap string pyobj)
    (dataset_df : gmap string (list pyobj))
    (dataset : gmap string (list (list float32)))
    (metadata : gmap string (gmap string pyobj))
    (preprocessing_parameters global_preprocessing_parameters
       : gmap string pyobj) :
  let run :=
    add_feature_data NAME w feature dataset_df dataset metadata
      preprocessing_parameters global_preprocessing_parameters in
  (feature !! NAME = None → run = ([], Raise (KeyError NAME))) ∧
  (∀ name,
     feature !! NAME = Some (PStr name) →
     (dataset_df !! name = None → run = ([], Raise (KeyError name))) ∧
     (∀ column,
        dataset_df !! name = Some column →
        (metadata !! name = None → run = ([], Raise (KeyError name))) ∧
        (∀ feature_metadata trace e,
           metadata !! name = Some feature_metadata →
           feature_data w (map py_obj_str column) feature_metadata
             preprocessing_parameters global_preprocessing_parameters
           = (trace, Raise e) →
           run = (trace, Raise e)))).
Proof.
  cbv zeta. unfold add_feature_data, getitem, subscript. split.
  - by intros ->.
  - intros name ->. cbn [rbind as_str lift tbind]. split.
    + by intros ->.
    + intros column ->. cbn [lift tbind]. split.
      * by intros ->.
      * intros feature_metadata trace e -> Hrun. cbn [lift tbind].
        by rewrite Hrun.
Qed.

End Coverage.

(** *** Backends *)

Lemma backend_registry_lookup (name : option string) :
  Backend.backend_registry !! name
  = if decide (name = Some "dask") then Some Backend.create_dask_backend_fn
    else if decide (name = Some "local")
         then Some Backend.get_local_backend_fn
         else if decide (name = None) then Some Backend.get_local_backend_fn
              else None.
Proof.
  unfold Backend.backend_registry.
  repeat case_decide; subst; simplify_map_eq; done.
Qed.


(** X20. The registry knows three names, and the lookup is case-sensitive
    and has no default. Under a name other than ['dask'], ['local'] and
    [None], [create_backend] raises [KeyError(name)] and builds nothing.
    Away from ['dask'], whose factory belongs to a module that is not
    among the sources, that is the only failure: the call raises
    [KeyError(name)] exactly when the name is neither ['local'] nor
    [None], and no other exception leaves it. *)
Theorem create_backend_names (name : option string) st :
  name ≠ Some "dask" →
  (Backend.create_backend name st = (inr (Backend.KeyError name), st) ↔
   name ≠ Some "local" ∧ name ≠ None) ∧
  (∀ e st',
     Backend.create_backend name st = (inr e, st') →
     e = Backend.KeyError name ∧ st' = st ∧
     name ≠ Some "local" ∧ name ≠ None).
Proof.
  intros Hdask.
  unfold Backend.create_backend. rewrite backend_registry_lookup.
  rewrite decide_False by done. split.
  - split.
    + by repeat case_decide.
    + intros (? & ?). by repeat case_decide.
  - intros e st'. repeat case_decide; subst; try done.
    by intros [= <- <-].
Qed.

(** * Runs of the further properties *)

Section CoverageRuns.

#[local] Existing Instance sample_libraries.

Lemma window_lags_witness :
  matrix_profile_enabled sample_parameters = false ∧ (1 ≤ 2)%Z ∧
  ∃ window_data values,
    add_timeseries_matrix_profile sample_world ["1"; "2"; "3"; "4"] 2
      sample_parameters = ([], Ok window_data) ∧
    window_data !! 3%nat = Some (Some (join " " values)) ∧
    last values = Some "3".
Proof.
  split; [reflexivity|]. split; [lia|].
  destruct (window_lags sample_world ["1"; "2"; "3"; "4"] 2
              sample_parameters 3)
    as (window_data & values & Hrun & Hcell & _ & _ & Hlast).
  - reflexivity.
  - lia.
  - simpl. lia.
  - simpl. lia.
  - exists window_data, values.
    split; [exact Hrun|]. split; [exact Hcell|exact Hlast].
Defined.

Lemma unit_window_is_identity_witness :
  ["1 2"; "3"] ≠ [] ∧ matrix_profile_enabled sample_parameters = false ∧
  add_timeseries_matrix_profile sample_world ["1 2"; "3"] 1 sample_parameters
  = ([], Ok [Some "1 2"; Some "3"]).
Proof.
  split; [discriminate|]. split; [reflexivity|].
  apply (unit_window_is_identity sample_world ["1 2"; "3"] sample_parameters).
  - discriminate.
  - reflexivity.
Defined.

Lemma window_count_witness :
  add_timeseries_matrix_profile sample_world ["1"] 0 sample_parameters
  = ([], Ok [Some ""; Some ""]) ∧
  Z.of_nat (length [Some ""; Some ""]) = (Z.of_nat (length ["1"]) + 1 - 0)%Z.
Proof.
  assert (add_timeseries_matrix_profile sample_world ["1"] 0
            sample_parameters = ([], Ok [Some ""; Some ""])) as Hrun
    by (vm_compute; reflexivity).
  split; [exact Hrun|].
  destruct (window_count sample_world ["1"] 0 sample_parameters []
              [Some ""; Some ""] Hrun) as (_ & _ & Hneg).
  apply Hneg. lia.
Defined.

Lemma nan_profile_raises_witness :
  @matrix_profile_enabled nan_libraries profile_parameters = true ∧
  @add_timeseries_matrix_profile nan_libraries nan_world
    ["1"; "2"; "3"; "4"] 3 profile_parameters
  = ([Call_build_stumpy_mp ["1"; "2"; "3"; "4"] 3],
     Raise (Exception nan_message)).
Proof.
  split; [reflexivity|].
  apply (@nan_profile_raises nan_libraries nan_world ["1"; "2"; "3"; "4"] 3
           profile_parameters _
           [@Build_stump_row nan_libraries None 0%Z (-1)%Z (-1)%Z;
            @Build_stump_row nan_libraries (Some 0%Z) 0%Z (-1)%Z (-1)%Z]
           (@Build_stump_row nan_libraries None 0%Z (-1)%Z (-1)%Z)).
  - reflexivity.
  - reflexivity.
  - apply list_elem_of_here.
  - reflexivity.
Defined.

Lemma window_failure_propagates_witness :
  feature_data sample_world ["1"; "2"]
    {[ "max_timeseries_length" := PInt 1 ]}
    (<[ "matrix_profile" := PBool true ]>
       (<[ "window_size" := PInt 2 ]> sample_parameters)) ∅
  = ([Call_build_stumpy_mp ["1"; "2"] 2], Raise ValueError).
Proof.
  apply (window_failure_propagates sample_world ["1"; "2"] 2).
  - reflexivity.
  - left. split; reflexivity.
Defined.

Lemma build_stumpy_mp_outcomes_witness :
  build_stumpy_mp sample_world ["1"; "x"] 3
  = ([Call_build_stumpy_mp ["1"; "x"] 3],
     Raise (Exception "Can't convert column to float")).
Proof.
  apply (build_stumpy_mp_outcomes sample_world ["1"; "x"] 3).
  exists "x". split; [|reflexivity].
  apply list_elem_of_further, list_elem_of_here.
Defined.

Lemma get_feature_meta_append_witness :
  get_feature_meta ["1 2 3"] sample_parameters
  = Ok {[ "max_timeseries_length" := PInt 3 ]} ∧
  get_feature_meta ["4"; "5 6"] sample_parameters
  = Ok {[ "max_timeseries_length" := PInt 2 ]} ∧
  ∃ length1 length2,
    get_feature_meta (["1 2 3"] ++ ["4"; "5 6"]) sample_parameters
    = Ok {[ "max_timeseries_length" := PInt (Z.max length1 length2) ]}.
Proof.
  assert (get_feature_meta ["1 2 3"] sample_parameters
          = Ok {[ "max_timeseries_length" := PInt 3 ]}) as Hmeta1
    by (vm_compute; reflexivity).
  assert (get_feature_meta ["4"; "5 6"] sample_parameters
          = Ok {[ "max_timeseries_length" := PInt 2 ]}) as Hmeta2
    by (vm_compute; reflexivity).
  split; [exact Hmeta1|]. split; [exact Hmeta2|].
  destruct (get_feature_meta_append ["1 2 3"] ["4"; "5 6"] sample_parameters
              _ _ Hmeta1 Hmeta2) as (length1 & length2 & _ & _ & Hmeta).
  exists length1, length2. exact Hmeta.
Defined.

Lemma get_feature_meta_domain_witness :
  get_feature_meta ["1 2"] (delete "tokenizer" sample_parameters)
  = Raise (KeyError "tokenizer") ∧
  get_feature_meta ["1 2"] (<["tokenizer" := PStr "words"]> sample_parameters)
  = Raise ValueError ∧
  get_feature_meta ["1 2"]
    (delete "timeseries_length_limit" sample_parameters)
  = Raise (KeyError "timeseries_length_limit") ∧
  get_feature_meta [] sample_parameters
  = Ok {[ "max_timeseries_length"
          := PInt (Z.min 256 (max_tokenized_length (split_blanks "") [])) ]}.
Proof.
  split; [|split; [|split]].
  - apply (proj1 (get_feature_meta_domain ["1 2"]
                    (delete "tokenizer" sample_parameters))).
    reflexivity.
  - apply (proj1 (proj2 (get_feature_meta_domain ["1 2"]
                           (<["tokenizer" := PStr "words"]>
                              sample_parameters)))
             (PStr "words") ValueError); reflexivity.
  - apply (proj1 (proj2 (proj2 (get_feature_meta_domain ["1 2"]
                                  (delete "timeseries_length_limit"
                                     sample_parameters))))
             (PStr "space") (split_blanks "")); reflexivity.
  - apply (proj2 (proj2 (proj2 (get_feature_meta_domain []
                                  sample_parameters)))
             (PStr "space") (split_blanks "") 256%Z); reflexivity.
Defined.


Lemma long_rows_ignore_padding_witness :
  build_matrix [Some "1 2 3"; Some "4 5 6 7"] (PStr "space") 2 (NInt 0)
    (PStr "right") = Ok [[1%Z; 2%Z]; [4%Z; 5%Z]] ∧
  build_matrix [Some "1 2 3"; Some "4 5 6 7"] (PStr "space") 2 (NInt 0)
    (PStr "left") = Ok [[1%Z; 2%Z]; [4%Z; 5%Z]].
Proof.
  assert (build_matrix [Some "1 2 3"; Some "4 5 6 7"] (PStr "space") 2
            (NInt 0) (PStr "right") = Ok [[1%Z; 2%Z]; [4%Z; 5%Z]]) as Hm
    by (vm_compute; reflexivity).
  split; [exact Hm|].
  refine (proj1 (long_rows_ignore_padding
                   [Some "1 2 3"; Some "4 5 6 7"] (PStr "space")
                   (split_blanks "") 2 (NInt 0) (PStr "right") (PStr "left")
                   _ eq_refl _ Hm)).
  intros ts v Hin Hv. apply list_elem_of_In in Hin.
  destruct Hin as [<-|[<-|[]]]; injection Hv as <-; simpl; lia.
Defined.

Lemma metadata_width_fits_witness :
  ∃ width,
    get_feature_meta ["1 2"; "3"] sample_parameters
    = Ok {[ "max_timeseries_length" := PInt width ]} ∧
    ∀ matrix,
      build_matrix (map Some ["1 2"; "3"]) (PStr "space") width (NInt 0)
        (PStr "right") = Ok matrix →
      ∃ v row,
        row_vector (split_blanks "") (NInt 0) (Some "1 2") = Ok v ∧
        matrix !! 0%nat = Some row ∧ take (length v) row = v.
Proof.
  assert (get_feature_meta ["1 2"; "3"] sample_parameters
          = Ok {[ "max_timeseries_length" := PInt 2 ]}) as Hmeta
    by (vm_compute; reflexivity).
  exists 2%Z. split; [exact Hmeta|]. intros matrix Hm.
  destruct (metadata_width_fits ["1 2"; "3"] sample_parameters
              {[ "max_timeseries_length" := PInt 2 ]}
              (PStr "space") (split_blanks "") 256 (NInt 0) (PStr "right")
              matrix eq_refl eq_refl eq_refl) as (width & Hwidth & Hrows);
    [|exact Hmeta|].
  - intros s Hin. apply list_elem_of_In in Hin.
    destruct Hin as [<-|[<-|[]]]; simpl; lia.
  - rewrite lookup_singleton_eq in Hwidth. injection Hwidth as <-.
    destruct (Hrows Hm 0%nat "1 2" eq_refl) as (v & row & Hv & _ & Hrow & Hfit);
      [discriminate|].
    exists v, row. split; [exact Hv|]. split; [exact Hrow|exact Hfit].
Defined.

Lemma feature_data_frame_witness :
  feature_data sample_world ["1"; "2"; "3"]
    {[ "max_timeseries_length" := PInt 1; "kind" := PStr "load" ]}
    (<[ "window_size" := PInt 2 ]> sample_parameters)
    {[ "seed" := PInt 42 ]}
  = ([], Ok ([[0%Z]; [1%Z]; [1%Z]],
             {[ "max_timeseries_length" := PInt 2; "kind" := PStr "load" ]},
             {[ "offset" := PInt 1; "seed" := PInt 42 ]})) ∧
  ({[ "max_timeseries_length" := PInt 2; "kind" := PStr "load" ]}
     : gmap string pyobj) !! "kind"
  = ({[ "max_timeseries_length" := PInt 1; "kind" := PStr "load" ]}
       : gmap string pyobj) !! "kind".
Proof.
  assert (feature_data sample_world ["1"; "2"; "3"]
            {[ "max_timeseries_length" := PInt 1; "kind" := PStr "load" ]}
            (<[ "window_size" := PInt 2 ]> sample_parameters)
            {[ "seed" := PInt 42 ]}
          = ([], Ok ([[0%Z]; [1%Z]; [1%Z]],
                     {[ "max_timeseries_length" := PInt 2;
                        "kind" := PStr "load" ]},
                     {[ "offset" := PInt 1; "seed" := PInt 42 ]}))) as Hrun
    by (vm_compute; reflexivity).
  split; [exact Hrun|].
  destruct (feature_data_frame _ _ _ _ _ _ _ _ _ Hrun) as (Hframe & _).
  apply Hframe. discriminate.
Defined.

Lemma feature_data_needs_stored_length_witness :
  (∅ : gmap string pyobj) !! "max_timeseries_length" = None ∧
  ∃ trace e,
    feature_data sample_world ["1"; "2"] ∅ sample_parameters ∅
    = (trace, Raise e).
Proof.
  split; [reflexivity|].
  apply (feature_data_needs_stored_length sample_world ["1"; "2"] ∅
           sample_parameters ∅).
  reflexivity.
Defined.

Lemma feature_data_default_window_witness :
  ["1 2"; "3"] ≠ [] ∧
  sample_parameters !! "window_size" = None ∧
  matrix_profile_enabled sample_parameters = false ∧
  ∃ outcome,
    feature_data sample_world ["1 2"; "3"]
      {[ "max_timeseries_length" := PInt 2 ]} sample_parameters ∅
    = ([], outcome) ∧
    build_matrix (map Some ["1 2"; "3"]) (PStr "space") 2 (NInt 0)
      (PStr "right") = Ok [[1%Z; 2%Z]; [3%Z; 0%Z]].
Proof.
  split; [discriminate|]. split; [reflexivity|]. split; [reflexivity|].
  eexists. split.
  - apply (feature_data_default_window sample_world ["1 2"; "3"]
             {[ "max_timeseries_length" := PInt 2 ]} sample_parameters ∅
             (PInt 2) 2 (PStr "space") (PInt 0) (NInt 0) (PStr "right"));
      (discriminate || reflexivity).
  - vm_compute. reflexivity.
Defined.

Lemma encoder_length_and_matrix_width_witness :
  feature_data sample_world ["1"; "2"; "3"]
    {[ "max_timeseries_length" := PInt 1 ]}
    (<[ "window_size" := PInt 2 ]> sample_parameters) ∅
  = ([], Ok ([[0%Z]; [1%Z]; [1%Z]],
             {[ "max_timeseries_length" := PInt 2 ]},
             {[ "offset" := PInt 1 ]})) ∧
  ∃ stored window_size input_feature' configured,
    (∀ row, row ∈ [[0%Z]; [1%Z]; [1%Z]] → length row = Z.to_nat stored) ∧
    update_config_with_metadata ∅ {[ "max_timeseries_length" := PInt 2 ]}
    = Ok input_feature' ∧
    input_feature' !! "max_sequence_length" = Some configured ∧
    as_int configured = Ok (Z.max stored window_size).
Proof.
  assert (feature_data sample_world ["1"; "2"; "3"]
            {[ "max_timeseries_length" := PInt 1 ]}
            (<[ "window_size" := PInt 2 ]> sample_parameters) ∅
          = ([], Ok ([[0%Z]; [1%Z]; [1%Z]],
                     {[ "max_timeseries_length" := PInt 2 ]},
                     {[ "offset" := PInt 1 ]}))) as Hrun
    by (vm_compute; reflexivity).
  split; [exact Hrun|].
  destruct (encoder_length_and_matrix_width _ _ _ _ _ ∅ _ _ _ _ Hrun)
    as (stored & window_size & input_feature' & configured & _ & _ & Hwidth
        & Hconfig & Hlookup & Hmax & _).
  exists stored, window_size, input_feature', configured.
  split; [exact Hwidth|]. split; [exact Hconfig|].
  split; [exact Hlookup|exact Hmax].
Defined.

Lemma preprocessing_pipeline_witness :
  get_feature_meta ["1 2"; "3"] sample_parameters
  = Ok {[ "max_timeseries_length" := PInt 2 ]} ∧
  ∃ timeseries_data metadata' global' input_feature',
    feature_data sample_world ["1 2"; "3"]
      {[ "max_timeseries_length" := PInt 2 ]} sample_parameters ∅
    = ([], Ok (timeseries_data, metadata', global')) ∧
    length timeseries_data = 2%nat ∧
    update_config_with_metadata ∅ metadata' = Ok input_feature' ∧
    input_feature' !! "max_sequence_length" = Some (PInt 2).
Proof.
  assert (get_feature_meta ["1 2"; "3"] sample_parameters
          = Ok {[ "max_timeseries_length" := PInt 2 ]}) as Hmeta
    by (vm_compute; reflexivity).
  split; [exact Hmeta|].
  destruct (preprocessing_pipeline sample_world ["1 2"; "3"]
              sample_parameters ∅ ∅
              {[ "max_timeseries_length" := PInt 2 ]} 2 (PStr "space")
              (split_blanks "") (PInt 0) (NInt 0) (PStr "right"))
    as (m & md' & g' & f' & Hrun & Hrows & _ & Hconfig & Hlookup);
    try (discriminate || reflexivity || exact Hmeta || lia).
  - intros s Hin Hne. apply list_elem_of_In in Hin.
    destruct Hin as [<-|[<-|[]]]; by eexists.
  - exists m, md', g', f'.
    split; [exact Hrun|]. split; [exact Hrows|].
    split; [exact Hconfig|exact Hlookup].
Defined.

Lemma add_feature_data_stores_witness :
  add_feature_data "name" sample_world sample_feature sample_frame ∅
    sample_metadata sample_parameters ∅
  = ([], Ok ({[ "load" := [[3%Z]; [14%Z]; [15%Z]] ]},
             sample_metadata, {[ "offset" := PInt 0 ]})) ∧
  ∃ name,
    sample_feature !! "name" = Some (PStr name) ∧
    ({[ "load" := [[3%Z]; [14%Z]; [15%Z]] ]}
       : gmap string (list (list float32))) !! name
    = Some [[3%Z]; [14%Z]; [15%Z]].
Proof.
  assert (add_feature_data "name" sample_world sample_feature sample_frame ∅
            sample_metadata sample_parameters ∅
          = ([], Ok ({[ "load" := [[3%Z]; [14%Z]; [15%Z]] ]},
                     sample_metadata, {[ "offset" := PInt 0 ]}))) as Hrun
    by (vm_compute; reflexivity).
  split; [exact Hrun|].
  destruct (add_feature_data_stores "name" _ _ _ _ _ _ _ _ _ _ _ Hrun)
    as (name & column & fm & m & fm' & Hname & Hcolumn & _ & Hfeature
        & Hstored & _).
  exists name. split; [exact Hname|].
  assert (name = "load") as -> by (vm_compute in Hname; congruence).
  reflexivity.
Defined.

Lemma add_feature_data_failures_witness :
  (∅ : gmap string pyobj) !! "name" = None ∧
  add_feature_data "name" sample_world ∅ sample_frame ∅ sample_metadata
    sample_parameters ∅
  = ([], Raise (KeyError "name")).
Proof.
  split; [reflexivity|].
  apply (proj1 (add_feature_data_failures "name" sample_world ∅
                  sample_frame ∅ sample_metadata sample_parameters ∅)).
  reflexivity.
Defined.

End CoverageRuns.


Lemma create_backend_names_witness :
  Backend.create_backend (Some "Local") (Backend.loaded true)
  = (inr (Backend.KeyError (Some "Local")), Backend.loaded true).
Proof.
  apply (proj1 (create_backend_names (Some "Local") (Backend.loaded true)
                  ltac:(discriminate))).
  split; discriminate.
Defined.
